(** * Image Bard: the image-acquisition and poem-generation pipeline

    A shallow embedding of
      - [src/app/actions.ts]                        (remote URL to data URI),
      - the file schema and change handler of [ImageBardClient]
        (local file to data URI),
      - [src/ai/flows/generate-poem-from-image.ts]  (the poem flow),
    together with the parts of the JavaScript runtime, of zod and of genkit
    that these files call. *)

From Stdlib Require Import List String Ascii Bool NArith ZArith Lia.
From Stdlib Require Import Strings.Byte DecimalString PrimFloat.
Import ListNotations.

#[local] Set Warnings "-register-all".

Local Open Scope string_scope.

(** ** JavaScript values and string primitives *)

Module JS.

(** The values a [JSON.parse] or a language-model output can hold, plus
    [undefined] (what reading an absent property yields).  Numbers are
    IEEE-754 doubles, as in the language. *)
Inductive JSValue : Type :=
| JUndefined
| JNull
| JBool (b : bool)
| JNum (x : float)
| JStr (s : string)
| JArr (items : list JSValue)
| JObj (fields : list (string * JSValue)).

(** What a [throw] carries, as far as the handlers of this code base
    inspect it: [e instanceof Error] with its [message], a bare string, or
    anything else. *)
Inductive Thrown : Type :=
| ThrownError (message : string)
| ThrownString (s : string)
| ThrownOther.

(** ToBoolean. *)
Definition truthy (v : JSValue) : bool :=
  match v with
  | JUndefined | JNull => false
  | JBool b => b
  | JNum x => negb (PrimFloat.eqb x 0%float || PrimFloat.is_nan x)
  | JStr s => negb (String.eqb s "")
  | JArr _ | JObj _ => true
  end.

(** Own-property lookup on a parsed object: [JSON.parse] keeps the last of
    two equal keys. *)
Fixpoint lookup (k : string) (fields : list (string * JSValue)) : JSValue :=
  match fields with
  | [] => JUndefined
  | (k', v) :: rest =>
      match lookup k rest with
      | JUndefined => if String.eqb k k' then v else JUndefined
      | later => later
      end
  end.

(** [v.k] for one of the keys this program reads ([message], [poem],
    [photoDataUri]): none of them is a property of a boxed primitive or of an
    array, and reading a property of [null] or [undefined] is a TypeError. *)
Definition getProp (v : JSValue) (k : string) : Thrown + JSValue :=
  match v with
  | JUndefined => inl (ThrownError "Cannot read properties of undefined")
  | JNull => inl (ThrownError "Cannot read properties of null")
  | JObj fields => inr (lookup k fields)
  | _ => inr JUndefined
  end.

(** [s.startsWith(p)]. *)
Definition startsWith (s p : string) : bool := String.prefix p s.

(** [s.includes(sub)]. *)
Fixpoint includes (s sub : string) : bool :=
  String.prefix sub s ||
  match s with
  | EmptyString => false
  | String _ rest => includes rest sub
  end.

(** [String(n)] for a non-negative integer such as an HTTP status. *)
Definition numberToString (n : N) : string :=
  NilZero.string_of_uint (N.to_uint n).

(** [list.includes(x)] on an array of strings. *)
Definition arrayIncludes (l : list string) (x : string) : bool :=
  existsb (String.eqb x) l.

End JS.

(** ** Base64, as [Buffer.prototype.toString("base64")] produces it *)

Module Base64.

Definition alphabet : list ascii :=
  list_ascii_of_string
    "ABCDEFGHIJKLMNOPQRSTUVWXYZabcdefghijklmnopqrstuvwxyz0123456789+/".

Definition pad : ascii := "="%char.

(** The character of a six-bit group. *)
Definition digit (n : N) : ascii := nth (N.to_nat n) alphabet pad.

Fixpoint indexOf (c : ascii) (l : list ascii) (i : N) : option N :=
  match l with
  | [] => None
  | x :: rest => if Ascii.eqb c x then Some i else indexOf c rest (N.succ i)
  end.

(** The six-bit group of a character of the alphabet. *)
Definition value (c : ascii) : option N := indexOf c alphabet 0%N.

Local Open Scope N_scope.

(** Three bytes become four characters; a final group of one or two bytes
    is zero-filled and padded with one [=] per missing byte. *)
Fixpoint encode (bs : list byte) : string :=
  match bs with
  | [] => EmptyString
  | [a] =>
      let x := Byte.to_N a in
      String (digit (x / 4))
        (String (digit ((x mod 4) * 16))
           (String pad (String pad EmptyString)))
  | [a; b] =>
      let x := Byte.to_N a in
      let y := Byte.to_N b in
      String (digit (x / 4))
        (String (digit ((x mod 4) * 16 + y / 16))
           (String (digit ((y mod 16) * 4))
              (String pad EmptyString)))
  | a :: b :: c :: rest =>
      let x := Byte.to_N a in
      let y := Byte.to_N b in
      let z := Byte.to_N c in
      String (digit (x / 4))
        (String (digit ((x mod 4) * 16 + y / 16))
           (String (digit ((y mod 16) * 4 + z / 64))
              (String (digit (z mod 64)) (encode rest))))
  end.

Definition byte1 (v1 v2 : N) : option byte := Byte.of_N (v1 * 4 + v2 / 16).
Definition byte2 (v2 v3 : N) : option byte := Byte.of_N ((v2 mod 16) * 16 + v3 / 4).
Definition byte3 (v3 v4 : N) : option byte := Byte.of_N ((v3 mod 4) * 64 + v4).

Definition isEmpty (s : string) : bool :=
  match s with EmptyString => true | _ => false end.

(** The decoder of RFC 4648, section 4: groups of four characters, padding
    only in the last group.  [None] on anything else. *)
Fixpoint decode (s : string) : option (list byte) :=
  match s with
  | EmptyString => Some []
  | String c1 (String c2 (String c3 (String c4 rest))) =>
      match value c1, value c2 with
      | Some v1, Some v2 =>
          if Ascii.eqb c3 pad then
            if Ascii.eqb c4 pad && isEmpty rest then
              match byte1 v1 v2 with
              | Some a => Some [a]
              | None => None
              end
            else None
          else
            match value c3 with
            | None => None
            | Some v3 =>
                if Ascii.eqb c4 pad then
                  if isEmpty rest then
                    match byte1 v1 v2, byte2 v2 v3 with
                    | Some a, Some b => Some [a; b]
                    | _, _ => None
                    end
                  else None
                else
                  match value c4 with
                  | None => None
                  | Some v4 =>
                      match byte1 v1 v2, byte2 v2 v3, byte3 v3 v4, decode rest with
                      | Some a, Some b, Some c, Some tl => Some (a :: b :: c :: tl)
                      | _, _, _, _ => None
                      end
                  end
            end
      | _, _ => None
      end
  | _ => None
  end.

End Base64.

(** ** Effects: a log of the external calls, and exceptions

    [async] functions of the source are run to completion here: an [await]
    is the point where the awaited call's outcome (a value or a rejection)
    enters the computation.  Calls made before a [throw] stay in the log. *)

Module Eff.

Section Monad.
Context {Ev Ex : Type}.

Definition M (A : Type) : Type := list Ev -> (Ex + A) * list Ev.

Definition ret {A} (a : A) : M A := fun log => (inr a, log).

Definition bind {A B} (m : M A) (k : A -> M B) : M B :=
  fun log =>
    match m log with
    | (inl e, log') => (inl e, log')
    | (inr a, log') => k a log'
    end.

Definition throw {A} (e : Ex) : M A := fun log => (inl e, log).

(** [try { body } catch (e) { handler e }]. *)
Definition tryCatch {A} (body : M A) (handler : Ex -> M A) : M A :=
  fun log =>
    match body log with
    | (inl e, log') => handler e log'
    | (inr a, log') => (inr a, log')
    end.

Definition emit (ev : Ev) : M unit := fun log => (inr tt, (log ++ [ev])%list).

(** The outcome of an awaited promise: a rejection is thrown. *)
Definition await {A} (outcome : Ex + A) : M A := fun log => (outcome, log).

Definition run {A} (m : M A) : (Ex + A) * list Ev := m [].

End Monad.

Arguments M : clear implicits.

Declare Scope eff_scope.
Delimit Scope eff_scope with eff.
Notation "x <- m ;; k" := (bind m (fun x => k))
  (at level 61, m at next level, right associativity) : eff_scope.
Notation "m ;; k" := (bind m (fun _ => k))
  (at level 61, right associativity) : eff_scope.

End Eff.

(** ** zod: the schema combinators the source uses *)

Module Zod.

Import JS.

(** The result of [schema.safeParse(x)].  A failed parse carries at least one
    issue; [first] is [error.errors[0].message]. *)
Inductive SafeParse (A : Type) : Type :=
| Success (data : A)
| Failure (first : string) (others : list string).
Arguments Success {A} data.
Arguments Failure {A} first others.

(** [z.string().url({ message })] on a string: the only check is that
    [new URL(input)] does not throw; [newURL] says whether it succeeds. *)
Definition stringUrl (newURL : string -> bool) (message : string)
    (input : string) : SafeParse string :=
  if newURL input then Success input else Failure message [].

(** One [.refine(check, message)]: [check] is the source's arrow function,
    giving the truthiness of what it returns, or what it throws. *)
Record Refinement (A : Type) : Type := {
  check : A -> Thrown + bool;
  message : string
}.
Arguments check {A} r x.
Arguments message {A} r.

(** A chain [.refine(r1).refine(r2)...]: the refinements run in the order
    they were attached; a failed one records its issue and the next ones
    still run (no refinement here is fatal); a throwing one propagates. *)
Fixpoint runRefinements {A} (rs : list (Refinement A)) (x : A)
    : Thrown + list string :=
  match rs with
  | [] => inr []
  | r :: rest =>
      match check r x with
      | inl e => inl e
      | inr passed =>
          match runRefinements rest x with
          | inl e => inl e
          | inr issues => inr (if passed then issues else message r :: issues)
          end
      end
  end.

(** [z.custom<T>().refine(...)...safeParse(x)]: [z.custom] with no check
    accepts every value. *)
Definition customRefined {A} (rs : list (Refinement A)) (x : A)
    : Thrown + SafeParse A :=
  match runRefinements rs x with
  | inl e => inl e
  | inr [] => inr (Success x)
  | inr (first :: others) => inr (Failure first others)
  end.

(** [z.object({ key: z.string() })] as a validator of a runtime value: an
    object whose [key] holds a string (the empty string included; other keys
    are not looked at). *)
Definition isString (v : JSValue) : bool :=
  match v with JStr _ => true | _ => false end.

Definition objectWithString (key : string) (v : JSValue) : bool :=
  match v with
  | JObj fields => isString (lookup key fields)
  | _ => false
  end.

End Zod.

(** ** [src/app/actions.ts] *)

Module Actions.

Import JS Eff.
Local Open Scope eff_scope.

Record ConversionResult : Type := {
  success : bool;
  dataUrl : option string;
  (** Declared [string]; it holds whatever the source assigns, which on one
      path is a value read out of a parsed JSON body. *)
  error : option JSValue
}.

(** [{ success: false, error }]. *)
Definition failed (e : JSValue) : ConversionResult :=
  {| success := false; dataUrl := None; error := Some e |}.

(** [{ success: true, dataUrl }]. *)
Definition converted (d : string) : ConversionResult :=
  {| success := true; dataUrl := Some d; error := None |}.

(** What the source reads of a fetch [Response]. *)
Record Response : Type := {
  status : N;
  statusText : string;
  (** [response.headers.get("content-type")]; [None] is [null]. *)
  contentType : option string;
  (** The outcome of [await response.json()]. *)
  json : Thrown + JSValue;
  (** The outcome of [await response.arrayBuffer()]: the whole body. *)
  arrayBuffer : Thrown + list byte
}.

(** [response.ok]. *)
Definition ok (r : Response) : bool :=
  (200 <=? status r)%N && (status r <=? 299)%N.

Inductive Event : Type :=
| Fetch (url : string) (headers : list (string * string))
| ReadJson
| ReadArrayBuffer
| ConsoleError (e : Thrown).

Definition userAgent : string :=
  "Mozilla/5.0 (Windows NT 10.0; Win64; x64) AppleWebKit/537.36 (KHTML, like Gecko) Chrome/91.0.4472.124 Safari/537.36".

(** String concatenation with a value that may be [null]. *)
Definition nullableToString (o : option string) : string :=
  match o with None => "null" | Some s => s end.

(** [!contentType || !contentType.startsWith("image/")]. *)
Definition notAnImage (ct : option string) : bool :=
  match ct with
  | None => true
  | Some s => negb (truthy (JStr s)) || negb (startsWith s "image/")
  end.

(** [ArrayBuffer.prototype.byteLength]. *)
Definition byteLength (buf : list byte) : N := N.of_nat (List.length buf).

(** The headers object passed to [fetch]. *)
Definition requestHeaders : list (string * string) :=
  [("User-Agent", userAgent)].

(** The message the [catch] block starts from:
    [e instanceof Error ? e.message : typeof e === 'string' ? e : default]. *)
Definition thrownMessage (e : Thrown) : string :=
  match e with
  | ThrownError message => message
  | ThrownString s => s
  | ThrownOther => "Failed to convert image URL."
  end.

Definition networkErrorMessage : string :=
  "Network error or invalid URL. Could not fetch the image.".

(** [if (errorMessage.includes('fetch')) errorMessage = "Network error..."]. *)
Definition userFacing (errorMessage : string) : string :=
  if includes errorMessage "fetch" then networkErrorMessage else errorMessage.

Section Action.

(** Whether the URL check of [z.string().url()] accepts [s]: whether
    [new URL(s)] returns rather than throws. *)
Variable newURL : string -> bool.
(** The outcome of [fetch(url, { headers })]: a response, or a rejection. *)
Variable network : string -> list (string * string) -> Thrown + Response.

Definition ImageUrlSchema : string -> Zod.SafeParse string :=
  Zod.stringUrl newURL "Invalid URL format.".

Definition fetch (url : string) (headers : list (string * string))
    : M Event Thrown Response :=
  emit (Fetch url headers) ;; await (network url headers).

Definition responseJson (r : Response) : M Event Thrown JSValue :=
  emit ReadJson ;; await (json r).

Definition responseArrayBuffer (r : Response) : M Event Thrown (list byte) :=
  emit ReadArrayBuffer ;; await (arrayBuffer r).

(** The [if (!response.ok) { ... }] block, up to its [return]. *)
Definition fetchErrorText (response : Response) : M Event Thrown JSValue :=
  let errorText :=
    JStr ("Failed to fetch image. Status: " ++ numberToString (status response)) in
  let statusTextOr :=
    if truthy (JStr (statusText response))
    then JStr ("Failed to fetch image: " ++ statusText response)
    else errorText in
  tryCatch
    (errorData <- responseJson response ;;
     (* errorData && errorData.message *)
     guard <- (if truthy errorData
               then await (getProp errorData "message")
               else ret errorData) ;;
     if truthy guard
     then await (getProp errorData "message")
     else ret statusTextOr)
    (fun jsonError => ret statusTextOr).

(** The [catch (e: any) { ... }] block. *)
Definition onException (e : Thrown) : M Event Thrown ConversionResult :=
  emit (ConsoleError e) ;;
  ret (failed (JStr (userFacing (thrownMessage e)))).

(** The body of the [try] block. *)
Definition tryBlock (imageUrl : string) : M Event Thrown ConversionResult :=
  match ImageUrlSchema imageUrl with
  | Zod.Failure first _ => ret (failed (JStr first))
  | Zod.Success _ =>
      response <- fetch imageUrl requestHeaders ;;
      if negb (ok response) then
        errorText <- fetchErrorText response ;;
        ret (failed errorText)
      else
        let contentType := contentType response in
        if notAnImage contentType then
          ret (failed (JStr
            ("Invalid content type. URL does not point to an image. Found: "
             ++ nullableToString contentType)))
        else
          imageBuffer <- responseArrayBuffer response ;;
          if (byteLength imageBuffer =? 0)%N then
            ret (failed (JStr "Fetched image is empty."))
          else if (10 * 1024 * 1024 <? byteLength imageBuffer)%N then
            ret (failed (JStr "Image size exceeds 10MB limit."))
          else
            let base64Data := Base64.encode imageBuffer in
            ret (converted
              ("data:" ++ nullableToString contentType ++ ";base64," ++ base64Data))
  end.

Definition convertImageUrlToDataUrlAction (imageUrl : string)
    : M Event Thrown ConversionResult :=
  tryCatch (tryBlock imageUrl) onException.

End Action.

End Actions.

(** ** [ImageBardClient]: the local-file path *)

Module ImageBardClient.

Import JS.

(** What the source reads of a DOM [File]. *)
Record File : Type := {
  size : N;
  type : string;
  content : list byte
}.

(** [event.target.files]: [None] is [null]; [Some l] is a [FileList]. *)
Definition FileList : Type := option (list File).

Definition MAX_FILE_SIZE : N := 5 * 1024 * 1024.

Definition ACCEPTED_IMAGE_TYPES : list string :=
  ["image/jpeg"; "image/png"; "image/webp"; "image/gif"].

(** [files[0].p] on a list with no first element reads a property of
    [undefined]. *)
Definition firstFile {A} (p : File -> A) (l : list File) : Thrown + A :=
  match l with
  | [] => inl (ThrownError "Cannot read properties of undefined")
  | f :: _ => inr (p f)
  end.

(** [(files) => files && files.length > 0]. *)
Definition isPresent (files : FileList) : Thrown + bool :=
  match files with
  | None => inr false
  | Some l => inr (0 <? List.length l)%nat
  end.

(** [(files) => files && files[0].size <= MAX_FILE_SIZE]. *)
Definition withinSize (files : FileList) : Thrown + bool :=
  match files with
  | None => inr false
  | Some l => firstFile (fun f => (size f <=? MAX_FILE_SIZE)%N) l
  end.

(** [(files) => files && ACCEPTED_IMAGE_TYPES.includes(files[0].type)]. *)
Definition hasAcceptedType (files : FileList) : Thrown + bool :=
  match files with
  | None => inr false
  | Some l => firstFile (fun f => arrayIncludes ACCEPTED_IMAGE_TYPES (type f)) l
  end.

Definition requiredMessage : string := "Image is required.".
Definition sizeMessage : string := "Max file size is 5MB.".
Definition typeMessage : string :=
  ".jpg, .jpeg, .png, .webp and .gif files are accepted.".

(** [fileSchema.shape.imageFile]. *)
Definition imageFile : list (Zod.Refinement FileList) :=
  [ {| Zod.check := isPresent; Zod.message := requiredMessage |};
    {| Zod.check := withinSize; Zod.message := sizeMessage |};
    {| Zod.check := hasAcceptedType; Zod.message := typeMessage |} ].

Definition imageFileSafeParse (files : FileList)
    : Thrown + Zod.SafeParse FileList :=
  Zod.customRefined imageFile files.

(** The two pieces of component state the handler writes. *)
Record State : Type := {
  imagePreview : option string;
  imageFileError : option string
}.

Section Handler.

(** What [reader.result] holds when [readAsDataURL(file)] has ended
    ([None] is [null], a failed read). *)
Variable readAsDataURL : File -> option string.

(** [handleFileChange], with the reader's [onloadend] run to its end. *)
Definition handleFileChange (files : FileList) (st : State) : Thrown + State :=
  match files with
  | Some (file :: _) =>
      match imageFileSafeParse files with
      | inl e => inl e
      | inr (Zod.Failure first _) =>
          inr {| imagePreview := None; imageFileError := Some first |}
      | inr (Zod.Success _) =>
          inr {| imagePreview := readAsDataURL file; imageFileError := None |}
      end
  | _ => inr st
  end.

End Handler.

End ImageBardClient.

(** ** [src/ai/flows/generate-poem-from-image.ts] *)

Module PoemFlow.

Import JS Eff.
Local Open Scope eff_scope.

(** [GeneratePoemFromImageInputSchema]: [.describe(...)] attaches text to
    the schema and checks nothing. *)
Definition GeneratePoemFromImageInputSchema : JSValue -> bool :=
  Zod.objectWithString "photoDataUri".

Definition GeneratePoemFromImageOutputSchema : JSValue -> bool :=
  Zod.objectWithString "poem".

(** The rendered prompt: the template's text and its one media part. *)
Record Prompt : Type := {
  text : string;
  mediaUrl : JSValue
}.

Definition promptText : string :=
  "You are a poet, and will generate a poem based on the image provided.

Generate a poem inspired by the image. Consider the themes, objects, and emotions present in the image.

Image: ".

(** How a call of the flow can fail. *)
Inductive GenerationError : Type :=
| InputSchemaViolation
| ModelFailure (e : Thrown)
| OutputSchemaViolation.

Inductive Event : Type :=
| ModelCall (p : Prompt).

Section Flow.

(** The model behind the prompt: the structured [output] of its response
    ([JNull] when it has none), or the failure of the invocation. *)
Variable model : Prompt -> Thrown + JSValue.

Definition generatePoemPrompt (input : JSValue)
    : M Event GenerationError JSValue :=
  let rendered :=
    {| text := promptText; mediaUrl := lookup "photoDataUri"
         match input with JObj fields => fields | _ => [] end |} in
  emit (ModelCall rendered) ;;
  match model rendered with
  | inl e => throw (ModelFailure e)
  | inr output => ret output
  end.

(** [ai.defineFlow({ inputSchema, outputSchema }, fn)]: the input is checked
    against [inputSchema] before [fn] runs, and what [fn] returns against
    [outputSchema]; [output!] changes nothing at run time. *)
Definition generatePoemFromImageFlow (input : JSValue)
    : M Event GenerationError JSValue :=
  if negb (GeneratePoemFromImageInputSchema input) then
    throw InputSchemaViolation
  else
    output <- generatePoemPrompt input ;;
    if negb (GeneratePoemFromImageOutputSchema output) then
      throw OutputSchemaViolation
    else ret output.

Definition generatePoemFromImage (input : JSValue)
    : M Event GenerationError JSValue :=
  generatePoemFromImageFlow input.

End Flow.

(** [{ photoDataUri: s }]. *)
Definition request (s : string) : JSValue := JObj [("photoDataUri", JStr s)].

(** [result.poem]. *)
Definition poem (result : JSValue) : JSValue :=
  match result with JObj fields => lookup "poem" fields | _ => JUndefined end.

End PoemFlow.

(** ** Vocabulary of the statements *)

Module Views.

Import JS Actions PoemFlow.

(** The machine-readable message of an error response: the [message]
    property of its JSON body, when the body parses, is truthy and the
    property is truthy. *)
Definition jsonMessage (response : Response) : option JSValue :=
  match json response with
  | inr errorData =>
      if truthy errorData then
        match getProp errorData "message" with
        | inr m => if truthy m then Some m else None
        | inl _ => None
        end
      else None
  | inl _ => None
  end.

(** The message for an error response without one. *)
Definition fallbackMessage (response : Response) : string :=
  if String.eqb (statusText response) ""
  then "Failed to fetch image. Status: " ++ numberToString (status response)
  else "Failed to fetch image: " ++ statusText response.

Definition errorMessage (response : Response) : JSValue :=
  match jsonMessage response with
  | Some m => m
  | None => JStr (fallbackMessage response)
  end.

(** The outcome once the whole body has been read. *)
Definition afterBody (response : Response) (body : list byte) : ConversionResult :=
  if (byteLength body =? 0)%N then failed (JStr "Fetched image is empty.")
  else if (10 * 1024 * 1024 <? byteLength body)%N
       then failed (JStr "Image size exceeds 10MB limit.")
       else converted ("data:" ++ nullableToString (contentType response)
                       ++ ";base64," ++ Base64.encode body).

(** The shape the specification asks of [photoDataUri], in its words: the
    [data:] scheme, a MIME type, the [;base64,] marker, the payload.  The
    source has no function that checks it. *)
Fixpoint markerAfterMime (rest : string) (mimeSeen : bool) : bool :=
  match rest with
  | EmptyString => false
  | String _ tl =>
      (mimeSeen && String.prefix ";base64," rest) || markerAfterMime tl true
  end.

Definition specWellFormedDataUri (s : string) : bool :=
  startsWith s "data:" &&
  markerAfterMime (String.substring 5 (String.length s - 5) s) false.

(** The prompt rendered for [{ photoDataUri: s }]. *)
Definition promptFor (s : string) : Prompt :=
  {| text := promptText; mediaUrl := JStr s |}.

(** A model that answers every prompt with [{ poem: p }]. *)
Definition answering (p : string) : Prompt -> Thrown + JSValue :=
  fun _ => inr (JObj [("poem", JStr p)]).

End Views.

(** ** Concrete scenarios, used to exercise the statements below *)

Module Fixtures.

Import JS Actions.

(** A stand-in for [new URL]: right on the inputs used here. *)
Definition parsesAsUrl (s : string) : bool :=
  String.prefix "http://" s || String.prefix "https://" s.

(** A network that answers every request with [r]. *)
Definition serving (r : Response)
    : string -> list (string * string) -> Thrown + Response :=
  fun _ _ => inr r.

(** A network on which [fetch] rejects the way Node's does. *)
Definition unreachable : string -> list (string * string) -> Thrown + Response :=
  fun _ _ => inl (ThrownError "fetch failed").

Definition notJson : Thrown + JSValue :=
  inl (ThrownError "Unexpected token in JSON at position 0").

(** A 2 KiB body that starts with the PNG signature. *)
Definition pngBody : list byte :=
  [x89; x50; x4e; x47; x0d; x0a; x1a; x0a] ++ repeat x00 2040.

Definition pngResponse : Response :=
  {| status := 200; statusText := "OK"; contentType := Some "image/png";
     json := notJson; arrayBuffer := inr pngBody |}.

Definition svgResponse : Response :=
  {| status := 200; statusText := "OK"; contentType := Some "image/svg+xml";
     json := notJson; arrayBuffer := inr (list_byte_of_string "<svg/>") |}.


(** An 11 MiB body. *)
Definition bigBody : list byte := repeat x00 (N.to_nat (11 * 1024 * 1024)).

Definition bigResponse : Response :=
  {| status := 200; statusText := "OK"; contentType := Some "image/jpeg";
     json := notJson; arrayBuffer := inr bigBody |}.

(** The double-quote character. *)
Definition dq : string := String (ascii_of_nat 34) EmptyString.

(** A 404 whose body is the JSON [{"message": "gone fishing"}]. *)
Definition notFoundJson : Response :=
  {| status := 404; statusText := "Not Found";
     contentType := Some "application/json";
     json := inr (JObj [("message", JStr "gone fishing")]);
     arrayBuffer := inr (list_byte_of_string
       ("{" ++ dq ++ "message" ++ dq ++ ": " ++ dq ++ "gone fishing" ++ dq ++ "}")) |}.

(** A 404 with an HTML body. *)
Definition notFoundPlain : Response :=
  {| status := 404; statusText := "Not Found"; contentType := Some "text/html";
     json := notJson;
     arrayBuffer := inr (list_byte_of_string "<h1>Not Found</h1>") |}.


Definition catUrl : string := "https://example.com/cat.png".

(** A 6 MiB local file that claims to be a PNG. *)
Definition bigFile : ImageBardClient.File :=
  {| ImageBardClient.size := 6 * 1024 * 1024;
     ImageBardClient.type := "image/png";
     ImageBardClient.content := repeat x00 (N.to_nat (6 * 1024 * 1024)) |}.

(** A reader that always succeeds, with the result the File API gives. *)
Definition fileReader (f : ImageBardClient.File) : option string :=
  Some ("data:" ++ ImageBardClient.type f ++ ";base64,"
        ++ Base64.encode (ImageBardClient.content f)).

Definition idle : ImageBardClient.State :=
  {| ImageBardClient.imagePreview := None;
     ImageBardClient.imageFileError := None |}.

End Fixtures.

(** ** [ImageBardClient]: the component state and its asynchronous handlers *)

Module Component.

Import JS.

Inductive Tab : Type := FileTab | UrlTab.

(** The five [useState] slots; [None] is [null].  [error] and
    [generatedPoem] are declared [string | null] and hold what the handlers
    store in them. *)
Record UiState : Type := {
  imagePreview : option string;
  generatedPoem : option JSValue;
  isLoading : bool;
  error : option JSValue;
  activeTab : Tab
}.

Definition setImagePreview (v : option string) (st : UiState) : UiState :=
  {| imagePreview := v; generatedPoem := generatedPoem st;
     isLoading := isLoading st; error := error st; activeTab := activeTab st |}.

Definition setGeneratedPoem (v : option JSValue) (st : UiState) : UiState :=
  {| imagePreview := imagePreview st; generatedPoem := v;
     isLoading := isLoading st; error := error st; activeTab := activeTab st |}.

Definition setIsLoading (v : bool) (st : UiState) : UiState :=
  {| imagePreview := imagePreview st; generatedPoem := generatedPoem st;
     isLoading := v; error := error st; activeTab := activeTab st |}.

Definition setError (v : option JSValue) (st : UiState) : UiState :=
  {| imagePreview := imagePreview st; generatedPoem := generatedPoem st;
     isLoading := isLoading st; error := v; activeTab := activeTab st |}.

Definition setActiveTab (v : Tab) (st : UiState) : UiState :=
  {| imagePreview := imagePreview st; generatedPoem := generatedPoem st;
     isLoading := isLoading st; error := error st; activeTab := v |}.

(** The argument of [toast(...)]. *)
Record Toast : Type := {
  variant : option string;
  title : string;
  description : JSValue
}.

Definition destructive (title : string) (description : JSValue) : Toast :=
  {| variant := Some "destructive"; title := title; description := description |}.

(** What a handler does outside the component state. *)
Inductive UiEvent : Type :=
| CallConvert (imageUrl : string)
| CallGenerate (input : JSValue)
| ShowToast (t : Toast)
| ClipboardWrite (text : JSValue).

(** [v || d] for a property that may be absent. *)
Definition orDefault (v : option JSValue) (d : string) : JSValue :=
  match v with
  | Some x => if truthy x then x else JStr d
  | None => JStr d
  end.

(** ToBoolean of a [string | null] or [string | undefined]. *)
Definition present (v : option string) : bool :=
  match v with
  | Some s => truthy (JStr s)
  | None => false
  end.

(** [e instanceof Error ? e.message : fallback]. *)
Definition messageOr (e : Thrown) (fallback : string) : string :=
  match e with
  | ThrownError message => message
  | _ => fallback
  end.

Definition sameTab (a b : Tab) : bool :=
  match a, b with
  | FileTab, FileTab | UrlTab, UrlTab => true
  | _, _ => false
  end.

Definition samePreview (a b : option string) : bool :=
  match a, b with
  | None, None => true
  | Some x, Some y => String.eqb x y
  | _, _ => false
  end.

(** The [useEffect] with dependencies [[imagePreview, activeTab]]: after a
    render in which either differs from the render before, the poem and the
    error are reset. *)
Definition resetOnChange (before after : UiState) : UiState :=
  if samePreview (imagePreview before) (imagePreview after)
     && sameTab (activeTab before) (activeTab after)
  then after
  else setError None (setGeneratedPoem None after).

(** [{generatedPoem && !isLoading && (... {generatedPoem} ...)}]: the text
    of the poem card when it is rendered, [None] when it is not. *)
Definition poemCard (st : UiState) : option JSValue :=
  match generatedPoem st with
  | Some poem => if truthy poem && negb (isLoading st) then Some poem else None
  | None => None
  end.

(** [{error && !isLoading && (... {error} ...)}]: the text of the error
    box when it is rendered. *)
Definition errorBox (st : UiState) : option JSValue :=
  match error st with
  | Some message => if truthy message && negb (isLoading st) then Some message else None
  | None => None
  end.

Section Handlers.

(** The outcome of [await convertImageUrlToDataUrlAction(url)] as the client
    sees it. *)
Variable convert : string -> Thrown + Actions.ConversionResult.
(** The outcome of [await generatePoemFromImage(input)] as the client sees
    it. *)
Variable generate : JSValue -> Thrown + JSValue.

(** [onUrlSubmit], up to its [await]. *)
Definition onUrlSubmitBegin (st : UiState) : UiState :=
  setImagePreview None
    (setGeneratedPoem None (setError None (setIsLoading true st))).

(** [onUrlSubmit], from the settled call to the end of [finally]. *)
Definition onUrlSubmitSettle (outcome : Thrown + Actions.ConversionResult)
    (st : UiState) : UiState * list UiEvent :=
  let '(st, events) :=
    match outcome with
    | inr result =>
        if Actions.success result && present (Actions.dataUrl result) then
          (setImagePreview (Actions.dataUrl result) st, [])
        else
          let shown :=
            orDefault (Actions.error result) "Failed to load image from URL." in
          (setError (Some shown) st, [ShowToast (destructive "Error" shown)])
    | inl e =>
        let errorMsg := JStr (messageOr e "An unknown error occurred.") in
        (setError (Some errorMsg) st,
         [ShowToast (destructive "Error" errorMsg)])
    end in
  (setIsLoading false st, events).

Definition onUrlSubmit (imageUrl : string) (st : UiState)
    : UiState * list UiEvent :=
  let '(st, events) :=
    onUrlSubmitSettle (convert imageUrl) (onUrlSubmitBegin st) in
  (st, CallConvert imageUrl :: events).

(** [triggerPoemGeneration], from the settled call to the end of
    [finally]; [result.poem] is read inside the [try]. *)
Definition triggerSettle (outcome : Thrown + JSValue) (st : UiState)
    : UiState * list UiEvent :=
  let read :=
    match outcome with
    | inr result => getProp result "poem"
    | inl e => inl e
    end in
  let '(st, events) :=
    match read with
    | inr poem => (setGeneratedPoem (Some poem) st, [])
    | inl e =>
        let errorMsg := JStr (messageOr e "Failed to generate poem.") in
        (setError (Some errorMsg) st,
         [ShowToast (destructive "Error generating poem" errorMsg)])
    end in
  (setIsLoading false st, events).

Definition triggerPoemGeneration (st : UiState) : UiState * list UiEvent :=
  match imagePreview st with
  | Some preview =>
      if truthy (JStr preview) then
        let input := JObj [("photoDataUri", JStr preview)] in
        let '(st, events) :=
          triggerSettle (generate input)
            (setGeneratedPoem None (setError None (setIsLoading true st))) in
        (st, CallGenerate input :: events)
      else
        (setError (Some (JStr "Please upload an image first.")) st,
         [ShowToast (destructive "Error" (JStr "Please upload an image first."))])
  | None =>
      (setError (Some (JStr "Please upload an image first.")) st,
       [ShowToast (destructive "Error" (JStr "Please upload an image first."))])
  end.

(** [copyPoemToClipboard]. *)
Definition copyPoemToClipboard (st : UiState) : list UiEvent :=
  match generatedPoem st with
  | Some poem =>
      if truthy poem then
        [ClipboardWrite poem;
         ShowToast {| variant := None; title := "Poem Copied!";
                      description :=
                        JStr "The poem has been copied to your clipboard." |}]
      else []
  | None => []
  end.

End Handlers.

End Component.

(** ** More concrete scenarios *)

Module MoreFixtures.

Import JS.

(** An image response with no bytes. *)
Definition emptyResponse : Actions.Response :=
  {| Actions.status := 200; Actions.statusText := "OK";
     Actions.contentType := Some "image/png";
     Actions.json := Fixtures.notJson; Actions.arrayBuffer := inr [] |}.

(** A 1 KiB local file of an accepted type. *)
Definition smallFile : ImageBardClient.File :=
  {| ImageBardClient.size := 1024;
     ImageBardClient.type := "image/webp";
     ImageBardClient.content := repeat x00 1024 |}.

Definition tinyPng : string := "data:image/png;base64,iVBORw0KGgo=".

(** A model whose invocation fails. *)
Definition overloaded : PoemFlow.Prompt -> Thrown + JSValue :=
  fun _ => inl (ThrownError "The model is overloaded.").

(** A failed call reaching the client as an [Error]. *)
Definition asError (failure : PoemFlow.GenerationError) : Thrown :=
  match failure with
  | PoemFlow.ModelFailure e => e
  | _ => ThrownError "Schema validation failed."
  end.

(** The component as first rendered. *)
Definition fresh : Component.UiState :=
  {| Component.imagePreview := None; Component.generatedPoem := None;
     Component.isLoading := false; Component.error := None;
     Component.activeTab := Component.FileTab |}.

(** The component once [tinyPng] is previewed. *)
Definition previewing : Component.UiState :=
  Component.setImagePreview (Some tinyPng) fresh.

End MoreFixtures.

(** ** The ways a call of the action can go *)

Module Traces.

Import JS Eff Actions Views.

(** Whether a logged call is an HTTP request. *)
Definition isFetch (ev : Event) : bool :=
  match ev with Fetch _ _ => true | _ => false end.

Section Paths.

Variable newURL : string -> bool.
Variable network : string -> list (string * string) -> Thrown + Response.

(** One constructor per [return] of [convertImageUrlToDataUrlAction] (the
    two size tests after the body read are kept together), with the result
    returned and the external calls made on the way. *)
Inductive path (imageUrl : string) : ConversionResult -> list Event -> Prop :=
| path_invalid :
    newURL imageUrl = false ->
    path imageUrl (failed (JStr "Invalid URL format.")) []
| path_rejected (e : Thrown) :
    newURL imageUrl = true ->
    network imageUrl requestHeaders = inl e ->
    path imageUrl (failed (JStr (userFacing (thrownMessage e))))
      [Fetch imageUrl requestHeaders; ConsoleError e]
| path_status (response : Response) :
    newURL imageUrl = true ->
    network imageUrl requestHeaders = inr response ->
    ok response = false ->
    path imageUrl (failed (errorMessage response))
      [Fetch imageUrl requestHeaders; ReadJson]
| path_type (response : Response) :
    newURL imageUrl = true ->
    network imageUrl requestHeaders = inr response ->
    ok response = true ->
    notAnImage (contentType response) = true ->
    path imageUrl
      (failed (JStr
         ("Invalid content type. URL does not point to an image. Found: "
          ++ nullableToString (contentType response))))
      [Fetch imageUrl requestHeaders]
| path_aborted (response : Response) (e : Thrown) :
    newURL imageUrl = true ->
    network imageUrl requestHeaders = inr response ->
    ok response = true ->
    notAnImage (contentType response) = false ->
    arrayBuffer response = inl e ->
    path imageUrl (failed (JStr (userFacing (thrownMessage e))))
      [Fetch imageUrl requestHeaders; ReadArrayBuffer; ConsoleError e]
| path_body (response : Response) (body : list byte) :
    newURL imageUrl = true ->
    network imageUrl requestHeaders = inr response ->
    ok response = true ->
    notAnImage (contentType response) = false ->
    arrayBuffer response = inr body ->
    path imageUrl (afterBody response body)
      [Fetch imageUrl requestHeaders; ReadArrayBuffer].

End Paths.

End Traces.

(** * Properties *)

(** ** Base64: decoding what [encode] produced gives the bytes back *)

Module Base64Facts.

Import Base64.
Local Open Scope N_scope.

(** The test vectors of RFC 4648, section 10. *)
Example encode_f : encode (list_byte_of_string "f") = "Zg==".
Proof. reflexivity. Qed.
Example encode_fo : encode (list_byte_of_string "fo") = "Zm8=".
Proof. reflexivity. Qed.
Example encode_foo : encode (list_byte_of_string "foo") = "Zm9v".
Proof. reflexivity. Qed.
Example encode_foobar : encode (list_byte_of_string "foobar") = "Zm9vYmFy".
Proof. reflexivity. Qed.
Example decode_foob : decode "Zm9vYg==" = Some (list_byte_of_string "foob").
Proof. reflexivity. Qed.
Example decode_rejects_short : decode "Zm9" = None.
Proof. reflexivity. Qed.

Definition sextets : list N := map N.of_nat (seq 0 64).

Lemma sextet_listed (n : N) : n < 64 -> In n sextets.
Proof.
  intros H. unfold sextets. apply in_map_iff.
  exists (N.to_nat n). split.
  - apply N2Nat.id.
  - apply in_seq. lia.
Qed.

Lemma value_digit (n : N) : n < 64 -> value (digit n) = Some n.
Proof.
  intros H.
  assert (A : forallb (fun k => match value (digit k) with
                                | Some m => N.eqb m k
                                | None => false
                                end) sextets = true) by (vm_compute; reflexivity).
  rewrite forallb_forall in A. specialize (A n (sextet_listed n H)).
  destruct (value (digit n)) as [m|]; [|discriminate].
  apply N.eqb_eq in A. now subst.
Qed.

Lemma digit_not_pad (n : N) : n < 64 -> Ascii.eqb (digit n) pad = false.
Proof.
  intros H.
  assert (A : forallb (fun k => negb (Ascii.eqb (digit k) pad)) sextets = true)
    by (vm_compute; reflexivity).
  rewrite forallb_forall in A. specialize (A n (sextet_listed n H)).
  now apply negb_true_iff in A.
Qed.

Lemma byte_bound (b : byte) : Byte.to_N b < 256.
Proof. pose proof (Byte.to_N_bounded b). lia. Qed.

Ltac euclid := zify; Z.to_euclidean_division_equations; lia.

Lemma group1_lt x : x < 256 -> x / 4 < 64.
Proof. euclid. Qed.
Lemma group2_lt x y : x < 256 -> y < 256 -> (x mod 4) * 16 + y / 16 < 64.
Proof. euclid. Qed.
Lemma group2_last_lt x : x < 256 -> (x mod 4) * 16 < 64.
Proof. euclid. Qed.
Lemma group3_lt y z : y < 256 -> z < 256 -> (y mod 16) * 4 + z / 64 < 64.
Proof. euclid. Qed.
Lemma group3_last_lt y : y < 256 -> (y mod 16) * 4 < 64.
Proof. euclid. Qed.
Lemma group4_lt z : z < 256 -> z mod 64 < 64.
Proof. euclid. Qed.

Lemma first_byte x y :
  x < 256 -> y < 256 -> x / 4 * 4 + ((x mod 4) * 16 + y / 16) / 16 = x.
Proof. euclid. Qed.
Lemma first_byte_last x : x < 256 -> x / 4 * 4 + ((x mod 4) * 16) / 16 = x.
Proof. euclid. Qed.
Lemma second_byte x y z :
  x < 256 -> y < 256 -> z < 256 ->
  (((x mod 4) * 16 + y / 16) mod 16) * 16 + ((y mod 16) * 4 + z / 64) / 4 = y.
Proof. euclid. Qed.
Lemma second_byte_last x y :
  x < 256 -> y < 256 ->
  (((x mod 4) * 16 + y / 16) mod 16) * 16 + ((y mod 16) * 4) / 4 = y.
Proof. euclid. Qed.
Lemma third_byte y z :
  y < 256 -> z < 256 ->
  (((y mod 16) * 4 + z / 64) mod 4) * 64 + z mod 64 = z.
Proof. euclid. Qed.

(** Induction on a list three elements at a time. *)
Lemma list_ind3 {A} (P : list A -> Prop) :
  P [] -> (forall a, P [a]) -> (forall a b, P [a; b]) ->
  (forall a b c l, P l -> P (a :: b :: c :: l)) ->
  forall l, P l.
Proof.
  intros H0 H1 H2 H3.
  fix IH 1. intros [|a [|b [|c l]]].
  - exact H0.
  - apply H1.
  - apply H2.
  - apply H3, IH.
Qed.

Lemma decode_group (v1 v2 v3 v4 : N) (rest : string) :
  v1 < 64 -> v2 < 64 -> v3 < 64 -> v4 < 64 ->
  decode (String (digit v1) (String (digit v2)
            (String (digit v3) (String (digit v4) rest)))) =
  match byte1 v1 v2, byte2 v2 v3, byte3 v3 v4, decode rest with
  | Some a, Some b, Some c, Some tl => Some (a :: b :: c :: tl)
  | _, _, _, _ => None
  end.
Proof.
  intros H1 H2 H3 H4. cbn [decode].
  rewrite (value_digit v1), (value_digit v2), (value_digit v3),
    (value_digit v4), (digit_not_pad v3), (digit_not_pad v4) by assumption.
  reflexivity.
Qed.

Lemma decode_last_two (v1 v2 v3 : N) :
  v1 < 64 -> v2 < 64 -> v3 < 64 ->
  decode (String (digit v1) (String (digit v2)
            (String (digit v3) (String pad EmptyString)))) =
  match byte1 v1 v2, byte2 v2 v3 with
  | Some a, Some b => Some [a; b]
  | _, _ => None
  end.
Proof.
  intros H1 H2 H3. cbn [decode].
  rewrite (value_digit v1), (value_digit v2), (value_digit v3),
    (digit_not_pad v3) by assumption.
  reflexivity.
Qed.

Lemma decode_last_one (v1 v2 : N) :
  v1 < 64 -> v2 < 64 ->
  decode (String (digit v1) (String (digit v2)
            (String pad (String pad EmptyString)))) =
  match byte1 v1 v2 with
  | Some a => Some [a]
  | None => None
  end.
Proof.
  intros H1 H2. cbn [decode].
  rewrite (value_digit v1), (value_digit v2) by assumption.
  reflexivity.
Qed.

Lemma decode_encode (bs : list byte) : decode (encode bs) = Some bs.
Proof.
  induction bs as [|a|a b|a b c l IH] using list_ind3.
  - reflexivity.
  - pose proof (byte_bound a) as Ha.
    cbn [encode].
    rewrite decode_last_one by auto using group1_lt, group2_last_lt.
    unfold byte1. rewrite first_byte_last, Byte.of_to_N by assumption.
    reflexivity.
  - pose proof (byte_bound a) as Ha. pose proof (byte_bound b) as Hb.
    cbn [encode].
    rewrite decode_last_two by auto using group1_lt, group2_lt, group3_last_lt.
    unfold byte1, byte2.
    rewrite first_byte, second_byte_last, !Byte.of_to_N by assumption.
    reflexivity.
  - pose proof (byte_bound a) as Ha. pose proof (byte_bound b) as Hb.
    pose proof (byte_bound c) as Hc.
    cbn [encode].
    rewrite decode_group by auto using group1_lt, group2_lt, group3_lt, group4_lt.
    unfold byte1, byte2, byte3.
    rewrite first_byte, second_byte, third_byte, !Byte.of_to_N, IH by assumption.
    reflexivity.
Qed.

End Base64Facts.

(** ** String facts used below *)

Module StringFacts.

Import JS.

Lemma prefix_app (s t : string) : String.prefix s (s ++ t) = true.
Proof.
  induction s as [|c s IH]; simpl.
  - destruct t; reflexivity.
  - destruct (ascii_dec c c) as [_|Hc]; [exact IH | now elim Hc].
Qed.

Lemma includes_self_app (s t : string) : includes (s ++ t) s = true.
Proof.
  destruct s as [|c s]; simpl.
  - destruct t; reflexivity.
  - destruct (ascii_dec c c) as [_|Hc]; [|now elim Hc].
    now rewrite prefix_app.
Qed.

(** A string that was appended to a prefix occurs in the result. *)
Lemma includes_app (p s t : string) : includes (p ++ s ++ t) s = true.
Proof.
  induction p as [|c p IH].
  - exact (includes_self_app s t).
  - cbn [append includes]. rewrite IH. apply orb_true_r.
Qed.

Lemma includes_suffix (p s : string) : includes (p ++ s) s = true.
Proof.
  rewrite <- (includes_app p s EmptyString).
  f_equal. f_equal.
  clear p. induction s as [|c s IH]; simpl; [reflexivity | now rewrite <- IH].
Qed.

End StringFacts.

(** ** [convertImageUrlToDataUrlAction] *)

Module ActionsFacts.

Import JS Eff Actions Views.
Local Open Scope eff_scope.

Ltac unfold_action :=
  unfold run, convertImageUrlToDataUrlAction, tryBlock, ImageUrlSchema,
    Zod.stringUrl,
    fetch, responseArrayBuffer, onException, tryCatch, bind, emit, await, ret;
  cbn [app].

Section Facts.

Variable newURL : string -> bool.
Variable network : string -> list (string * string) -> Thrown + Response.

Local Notation "'action'" := (convertImageUrlToDataUrlAction newURL network)
  (only parsing).

Lemma fetchErrorText_run (response : Response) (log : list Event) :
  fetchErrorText response log =
  (inr (errorMessage response), (log ++ [ReadJson])%list).
Proof.
  unfold fetchErrorText, errorMessage, jsonMessage, fallbackMessage,
    responseJson, tryCatch, bind, emit, await, ret.
  cbn [truthy].
  destruct (json response) as [e|errorData]; cbn.
  - now destruct (String.eqb (statusText response) "").
  - destruct (truthy errorData) eqn:Hd.
    + destruct (getProp errorData "message") as [e|m]; cbn.
      * now destruct (String.eqb (statusText response) "").
      * destruct (truthy m); [reflexivity|].
        now destruct (String.eqb (statusText response) "").
    + rewrite Hd. now destruct (String.eqb (statusText response) "").
Qed.

Lemma run_invalid_url (imageUrl : string) :
  newURL imageUrl = false ->
  run (action imageUrl) = (inr (failed (JStr "Invalid URL format.")), []).
Proof. intros H. unfold_action. now rewrite H. Qed.

Lemma run_fetch_rejected (imageUrl : string) (e : Thrown) :
  newURL imageUrl = true ->
  network imageUrl requestHeaders = inl e ->
  run (action imageUrl) =
  (inr (failed (JStr (userFacing (thrownMessage e)))),
   [Fetch imageUrl requestHeaders; ConsoleError e]).
Proof. intros H1 H2. unfold_action. now rewrite H1, H2. Qed.

Lemma run_error_status (imageUrl : string) (response : Response) :
  newURL imageUrl = true ->
  network imageUrl requestHeaders = inr response ->
  ok response = false ->
  run (action imageUrl) =
  (inr (failed (errorMessage response)),
   [Fetch imageUrl requestHeaders; ReadJson]).
Proof.
  intros H1 H2 H3. unfold_action. rewrite H1, H2, H3. cbn.
  now rewrite fetchErrorText_run.
Qed.

Lemma run_not_image (imageUrl : string) (response : Response) :
  newURL imageUrl = true ->
  network imageUrl requestHeaders = inr response ->
  ok response = true ->
  notAnImage (contentType response) = true ->
  run (action imageUrl) =
  (inr (failed (JStr
     ("Invalid content type. URL does not point to an image. Found: "
      ++ nullableToString (contentType response)))),
   [Fetch imageUrl requestHeaders]).
Proof. intros H1 H2 H3 H4. unfold_action. now rewrite H1, H2, H3, H4. Qed.

Lemma run_body_rejected (imageUrl : string) (response : Response) (e : Thrown) :
  newURL imageUrl = true ->
  network imageUrl requestHeaders = inr response ->
  ok response = true ->
  notAnImage (contentType response) = false ->
  arrayBuffer response = inl e ->
  run (action imageUrl) =
  (inr (failed (JStr (userFacing (thrownMessage e)))),
   [Fetch imageUrl requestHeaders; ReadArrayBuffer; ConsoleError e]).
Proof.
  intros H1 H2 H3 H4 H5. unfold_action. now rewrite H1, H2, H3, H4, H5.
Qed.

Lemma run_body_read (imageUrl : string) (response : Response) (body : list byte) :
  newURL imageUrl = true ->
  network imageUrl requestHeaders = inr response ->
  ok response = true ->
  notAnImage (contentType response) = false ->
  arrayBuffer response = inr body ->
  run (action imageUrl) =
  (inr (afterBody response body),
   [Fetch imageUrl requestHeaders; ReadArrayBuffer]).
Proof.
  intros H1 H2 H3 H4 H5. unfold_action. rewrite H1, H2, H3, H4, H5.
  unfold afterBody. cbn [negb].
  destruct (byteLength body =? 0)%N; [reflexivity|].
  now destruct (10 * 1024 * 1024 <? byteLength body)%N.
Qed.

(** C4. An input that [new URL] rejects makes the action return
    [{ success: false, error: "Invalid URL format." }], and the log of
    external calls stays empty: no HTTP request is issued. *)
Theorem invalid_url_fails_without_request (imageUrl : string) :
  newURL imageUrl = false ->
  exists r log,
    run (action imageUrl) = (inr r, log) /\
    success r = false /\ dataUrl r = None /\
    error r = Some (JStr "Invalid URL format.") /\
    forall url headers, ~ In (Fetch url headers) log.
Proof.
  intros H. eexists; eexists. split; [apply run_invalid_url, H|].
  repeat split. intros url headers [].
Qed.

(** C3. Whenever the action succeeds, the response carried a content type
    [ct] and a body, the returned [dataUrl] is exactly
    [data:<ct>;base64,<base64 of the body>], and decoding the base64 part
    gives the body back. *)
Theorem converted_dataUrl_shape (imageUrl : string) (r : ConversionResult)
    (log : list Event) :
  run (action imageUrl) = (inr r, log) ->
  success r = true ->
  exists response ct body,
    network imageUrl requestHeaders = inr response /\
    contentType response = Some ct /\
    arrayBuffer response = inr body /\
    dataUrl r = Some ("data:" ++ ct ++ ";base64," ++ Base64.encode body) /\
    Base64.decode (Base64.encode body) = Some body.
Proof.
  intros Hrun Hok.
  destruct (newURL imageUrl) eqn:Hurl.
  2: { rewrite run_invalid_url in Hrun by assumption.
       inversion Hrun; subst; discriminate. }
  destruct (network imageUrl requestHeaders) as [e|response] eqn:Hnet.
  { rewrite (run_fetch_rejected _ _ Hurl Hnet) in Hrun.
    inversion Hrun; subst; discriminate. }
  destruct (ok response) eqn:Hstatus.
  2: { rewrite (run_error_status _ _ Hurl Hnet Hstatus) in Hrun.
       inversion Hrun; subst; discriminate. }
  destruct (notAnImage (contentType response)) eqn:Himg.
  { rewrite (run_not_image _ _ Hurl Hnet Hstatus Himg) in Hrun.
    inversion Hrun; subst; discriminate. }
  destruct (arrayBuffer response) as [e|body] eqn:Hbody.
  { rewrite (run_body_rejected _ _ _ Hurl Hnet Hstatus Himg Hbody) in Hrun.
    inversion Hrun; subst; discriminate. }
  rewrite (run_body_read _ _ _ Hurl Hnet Hstatus Himg Hbody) in Hrun.
  inversion Hrun; subst; clear Hrun.
  destruct (contentType response) as [ct|] eqn:Hct; [|discriminate].
  exists response, ct, body. repeat split; try assumption.
  - unfold afterBody in *. rewrite Hct.
    destruct (byteLength body =? 0)%N; [discriminate|].
    destruct (10 * 1024 * 1024 <? byteLength body)%N; [discriminate|].
    reflexivity.
  - apply Base64Facts.decode_encode.
Qed.


(** C7. When the status is a success, the content type is an image type and
    the body that was read is longer than 10 MiB, the action fails: the
    result has [success] false, no [dataUrl], and the 10MB message as its
    [error]; the log shows that the body had been read in full by then. *)
Theorem oversize_body_rejected (imageUrl : string) (response : Response)
    (body : list byte) :
  newURL imageUrl = true ->
  network imageUrl requestHeaders = inr response ->
  ok response = true ->
  notAnImage (contentType response) = false ->
  arrayBuffer response = inr body ->
  (10 * 1024 * 1024 < byteLength body)%N ->
  exists r,
    run (action imageUrl) =
      (inr r, [Fetch imageUrl requestHeaders; ReadArrayBuffer]) /\
    success r = false /\ dataUrl r = None /\
    error r = Some (JStr "Image size exceeds 10MB limit.").
Proof.
  intros Hurl Hnet Hstatus Himg Hbody Hlen.
  eexists. split; [apply (run_body_read _ _ _ Hurl Hnet Hstatus Himg Hbody)|].
  unfold afterBody.
  replace (byteLength body =? 0)%N with false
    by (symmetry; apply N.eqb_neq; lia).
  replace (10 * 1024 * 1024 <? byteLength body)%N with true
    by (symmetry; apply N.ltb_lt; exact Hlen).
  repeat split.
Qed.

(** C8 (as amended). For a response whose status is not a success the action
    fails: the result has [success] false, no [dataUrl], and an [error] that
    is, in this order: the [message] of the JSON body when there is a truthy
    one; else ["Failed to fetch image: "] followed by the status text when
    that is not empty; else ["Failed to fetch image. Status: "] followed by
    the numeric status.  For a 404 whose body carries no such JSON message,
    the [error] therefore contains ["404"] or the (non-empty) status text. *)
Theorem error_status_message_order (imageUrl : string) (response : Response) :
  newURL imageUrl = true ->
  network imageUrl requestHeaders = inr response ->
  ok response = false ->
  exists r,
    run (action imageUrl) = (inr r, [Fetch imageUrl requestHeaders; ReadJson]) /\
    success r = false /\ dataUrl r = None /\
    error r =
      Some match jsonMessage response with
           | Some m => m
           | None =>
               if String.eqb (statusText response) ""
               then JStr ("Failed to fetch image. Status: "
                          ++ numberToString (status response))
               else JStr ("Failed to fetch image: " ++ statusText response)
           end /\
    (status response = 404%N -> jsonMessage response = None ->
     exists msg,
       error r = Some (JStr msg) /\
       (includes msg "404" = true \/
        (statusText response <> "" /\
         includes msg (statusText response) = true))).
Proof.
  intros Hurl Hnet Hstatus.
  eexists. split; [apply (run_error_status _ _ Hurl Hnet Hstatus)|].
  cbn [success dataUrl error failed].
  unfold errorMessage, fallbackMessage.
  do 2 (split; [reflexivity|]). split.
  - destruct (jsonMessage response); [reflexivity|].
    now destruct (String.eqb (statusText response) "").
  - intros H404 Hnone. rewrite Hnone, H404.
    destruct (String.eqb (statusText response) "") eqn:Htext;
      eexists; (split; [reflexivity|]).
    + left. vm_compute. reflexivity.
    + right. split.
      * now apply String.eqb_neq.
      * apply StringFacts.includes_suffix.
Qed.

(** An exception leaves the [try] block in two ways only: [fetch] rejects,
    or the response is an image and the read of its body rejects. *)
Lemma tryBlock_throws (imageUrl : string) (e : Thrown) (log : list Event) :
  run (tryBlock newURL network imageUrl) = (inl e, log) <->
  newURL imageUrl = true /\
  ((network imageUrl requestHeaders = inl e /\
    log = [Fetch imageUrl requestHeaders]) \/
   (exists response,
      network imageUrl requestHeaders = inr response /\
      ok response = true /\ notAnImage (contentType response) = false /\
      arrayBuffer response = inl e /\
      log = [Fetch imageUrl requestHeaders; ReadArrayBuffer])).
Proof.
  unfold run, tryBlock, ImageUrlSchema, Zod.stringUrl, fetch,
    responseArrayBuffer, bind, emit, await, ret. cbn [app].
  destruct (newURL imageUrl).
  2: { split; [discriminate | intros [? _]; discriminate]. }
  destruct (network imageUrl requestHeaders) as [e'|response].
  { split.
    - intros H. inversion H; subst. split; [reflexivity|]. now left.
    - intros [_ [[H ->] | (r & H & _)]]; [|discriminate].
      now inversion H. }
  destruct (ok response) eqn:Hstatus; cbn [negb].
  2: { rewrite fetchErrorText_run. split; [discriminate|].
       intros [_ [[H _] | (r & H & Hr & _)]]; [discriminate|].
       inversion H; subst. congruence. }
  destruct (notAnImage (contentType response)) eqn:Himg.
  { split; [discriminate|].
    intros [_ [[H _] | (r & H & _ & Hr & _)]]; [discriminate|].
    inversion H; subst. congruence. }
  destruct (arrayBuffer response) as [e'|body] eqn:Hbody.
  { split.
    - intros H. inversion H; subst. split; [reflexivity|]. right.
      exists response. repeat split; assumption.
    - intros [_ [[H _] | (r & H & _ & _ & Hr & ->)]]; [discriminate|].
      inversion H; subst. cbn [app]. congruence. }
  split.
  - destruct (byteLength body =? 0)%N; [discriminate|].
    destruct (10 * 1024 * 1024 <? byteLength body)%N; discriminate.
  - intros [_ [[H _] | (r & H & _ & _ & Hr & _)]]; [discriminate|].
    inversion H; subst. congruence.
Qed.


(** X1. Whatever the URL check, the network and the response do, the action
    returns a result and throws nothing to the caller; a successful result
    holds a [dataUrl] and no [error], a failed one an [error] and no
    [dataUrl]. *)
Lemma action_never_throws (imageUrl : string) :
  exists r log,
    run (action imageUrl) = (inr r, log) /\
    (success r = true /\ error r = None /\ dataUrl r <> None \/
     success r = false /\ error r <> None /\ dataUrl r = None).
Proof.
  destruct (newURL imageUrl) eqn:Hurl.
  2: { eexists; eexists; split; [apply run_invalid_url, Hurl|].
       right; repeat split; discriminate. }
  destruct (network imageUrl requestHeaders) as [e|response] eqn:Hnet.
  { eexists; eexists; split; [apply (run_fetch_rejected _ _ Hurl Hnet)|].
    right; repeat split; discriminate. }
  destruct (ok response) eqn:Hstatus.
  2: { eexists; eexists; split; [apply (run_error_status _ _ Hurl Hnet Hstatus)|].
       right; repeat split; discriminate. }
  destruct (notAnImage (contentType response)) eqn:Himg.
  { eexists; eexists; split; [apply (run_not_image _ _ Hurl Hnet Hstatus Himg)|].
    right; repeat split; discriminate. }
  destruct (arrayBuffer response) as [e|body] eqn:Hbody.
  { eexists; eexists; split;
      [apply (run_body_rejected _ _ _ Hurl Hnet Hstatus Himg Hbody)|].
    right; repeat split; discriminate. }
  eexists; eexists; split;
    [apply (run_body_read _ _ _ Hurl Hnet Hstatus Himg Hbody)|].
  unfold afterBody.
  destruct (byteLength body =? 0)%N; [right; repeat split; discriminate|].
  destruct (10 * 1024 * 1024 <? byteLength body)%N;
    [right | left]; repeat split; discriminate.
Qed.

End Facts.

End ActionsFacts.

(** ** The file schema and [handleFileChange] *)

Module ImageBardClientFacts.

Import JS ImageBardClient.

Lemma oversize_fails_withinSize (file : File) (others : list File) :
  (MAX_FILE_SIZE < size file)%N ->
  withinSize (Some (file :: others)) = inr false.
Proof.
  intros H. cbn [withinSize firstFile]. f_equal. apply N.leb_gt, H.
Qed.

(** C5 (as amended). A selected file larger than 5 MiB makes
    [handleFileChange] record the size message, whatever its type: the size
    refinement is attached before the type refinement, so its issue comes
    first (a type issue, if any, comes second).  A file within the size limit
    whose type is outside the list gets the type message.  The schema's
    third message, for the presence refinement, is the first issue of a
    [null] list; the three messages differ.  [handleFileChange] itself
    records no message when no file is selected ([null] or an empty list):
    it leaves the state as it is. *)
Theorem oversize_file_gets_size_message (readAsDataURL : File -> option string)
    (file : File) (others : list File) (st : State) :
  (5 * 1024 * 1024 < size file)%N ->
  handleFileChange readAsDataURL (Some (file :: others)) st =
    inr {| imagePreview := None;
           imageFileError := Some "Max file size is 5MB." |} /\
  imageFileSafeParse (Some (file :: others)) =
    inr (Zod.Failure "Max file size is 5MB."
           (if arrayIncludes ACCEPTED_IMAGE_TYPES (type file)
            then []
            else [".jpg, .jpeg, .png, .webp and .gif files are accepted."])) /\
  (forall f fs,
     (size f <= 5 * 1024 * 1024)%N ->
     arrayIncludes ACCEPTED_IMAGE_TYPES (type f) = false ->
     imageFileSafeParse (Some (f :: fs)) =
       inr (Zod.Failure
              ".jpg, .jpeg, .png, .webp and .gif files are accepted." []) /\
     handleFileChange readAsDataURL (Some (f :: fs)) st =
       inr {| imagePreview := None;
              imageFileError :=
                Some ".jpg, .jpeg, .png, .webp and .gif files are accepted." |}) /\
  imageFileSafeParse None =
    inr (Zod.Failure "Image is required."
           ["Max file size is 5MB.";
            ".jpg, .jpeg, .png, .webp and .gif files are accepted."]) /\
  handleFileChange readAsDataURL None st = inr st /\
  handleFileChange readAsDataURL (Some []) st = inr st /\
  requiredMessage <> sizeMessage /\
  requiredMessage <> typeMessage /\
  sizeMessage <> typeMessage.
Proof.
  intros Hsize.
  assert (Hparse : imageFileSafeParse (Some (file :: others)) =
    inr (Zod.Failure sizeMessage
           (if arrayIncludes ACCEPTED_IMAGE_TYPES (type file)
            then [] else [typeMessage]))).
  { unfold imageFileSafeParse, Zod.customRefined, imageFile.
    cbn [Zod.runRefinements Zod.check Zod.message].
    rewrite (oversize_fails_withinSize file others Hsize).
    cbn [isPresent hasAcceptedType firstFile List.length Nat.ltb Nat.leb].
    now destruct (arrayIncludes ACCEPTED_IMAGE_TYPES (type file)). }
  split; [|split; [exact Hparse|split]].
  - unfold handleFileChange. now rewrite Hparse.
  - intros f fs Hf Htype.
    assert (Hf' : imageFileSafeParse (Some (f :: fs)) =
                  inr (Zod.Failure typeMessage [])).
    { unfold imageFileSafeParse, Zod.customRefined, imageFile.
      cbn [Zod.runRefinements Zod.check Zod.message isPresent withinSize
           hasAcceptedType firstFile List.length Nat.ltb Nat.leb].
      rewrite Htype.
      replace (size f <=? MAX_FILE_SIZE)%N with true
        by (symmetry; apply N.leb_le, Hf).
      reflexivity. }
    split; [exact Hf'|]. unfold handleFileChange. now rewrite Hf'.
  - do 3 (split; [reflexivity|]). repeat split; discriminate.
Qed.

End ImageBardClientFacts.

(** ** The type list is the local path's alone *)

Module EnumerationFacts.

Import JS Eff Actions ImageBardClient Views.

Section Facts.

Variable newURL : string -> bool.
Variable network : string -> list (string * string) -> Thrown + Response.
Variable readAsDataURL : File -> option string.

(** C10. A response whose content type starts with [image/] and lies
    outside [ACCEPTED_IMAGE_TYPES], with a body that is not empty and at
    most 10 MiB long, is converted: the result has [success] true, no
    [error], and [data:<that type>;base64,<base64 of the body>] as its
    [dataUrl].  A local file of the same type, within the local size limit,
    is refused with the type message. *)
Theorem remote_accepts_types_outside_list (imageUrl : string)
    (response : Response) (ct : string) (body : list byte) :
  newURL imageUrl = true ->
  network imageUrl requestHeaders = inr response ->
  ok response = true ->
  contentType response = Some ct ->
  startsWith ct "image/" = true ->
  arrayIncludes ACCEPTED_IMAGE_TYPES ct = false ->
  arrayBuffer response = inr body ->
  body <> [] ->
  (byteLength body <= 10 * 1024 * 1024)%N ->
  (exists r,
     run (convertImageUrlToDataUrlAction newURL network imageUrl) =
       (inr r, [Fetch imageUrl requestHeaders; ReadArrayBuffer]) /\
     success r = true /\ error r = None /\
     dataUrl r = Some ("data:" ++ ct ++ ";base64," ++ Base64.encode body)) /\
  forall (file : File) (others : list File) (st : State),
    type file = ct ->
    (size file <= MAX_FILE_SIZE)%N ->
    handleFileChange readAsDataURL (Some (file :: others)) st =
      inr {| imagePreview := None;
             imageFileError :=
               Some ".jpg, .jpeg, .png, .webp and .gif files are accepted." |}.
Proof.
  intros Hurl Hnet Hstatus Hct Hpre Hout Hbody Hne Hlen. split.
  - assert (Himg : notAnImage (contentType response) = false).
    { rewrite Hct. unfold notAnImage. rewrite Hpre. cbn [truthy negb orb].
      destruct ct; [discriminate | reflexivity]. }
    eexists. split;
      [apply (ActionsFacts.run_body_read _ _ _ _ _ Hurl Hnet Hstatus Himg Hbody)|].
    unfold afterBody. rewrite Hct. cbn [nullableToString].
    replace (byteLength body =? 0)%N with false.
    2: { symmetry. apply N.eqb_neq. unfold byteLength.
         destruct body; [now elim Hne | cbn [List.length]; lia]. }
    replace (10 * 1024 * 1024 <? byteLength body)%N with false
      by (symmetry; apply N.ltb_ge, Hlen).
    repeat split.
  - intros file others st Htype Hsize.
    unfold handleFileChange, imageFileSafeParse, Zod.customRefined, imageFile.
    cbn [Zod.runRefinements Zod.check Zod.message isPresent withinSize
         hasAcceptedType firstFile List.length Nat.ltb Nat.leb].
    rewrite Htype, Hout.
    replace (size file <=? MAX_FILE_SIZE)%N with true
      by (symmetry; apply N.leb_le, Hsize).
    reflexivity.
Qed.

End Facts.

End EnumerationFacts.

(** ** [generatePoemFromImage] *)

Module PoemFlowFacts.

Import JS Eff PoemFlow Views.

Section Facts.

Variable model : Prompt -> Thrown + JSValue.

Lemma request_accepted (s : string) :
  GeneratePoemFromImageInputSchema (request s) = true.
Proof. reflexivity. Qed.

Lemma run_request (s : string) :
  run (generatePoemFromImage model (request s)) =
  match model (promptFor s) with
  | inl e => (inl (ModelFailure e), [ModelCall (promptFor s)])
  | inr output =>
      if GeneratePoemFromImageOutputSchema output
      then (inr output, [ModelCall (promptFor s)])
      else (inl OutputSchemaViolation, [ModelCall (promptFor s)])
  end.
Proof.
  unfold run, generatePoemFromImage, generatePoemFromImageFlow,
    generatePoemPrompt, bind, emit, throw, ret.
  rewrite request_accepted. cbn [negb app request].
  change (lookup "photoDataUri" [("photoDataUri", JStr s)]) with (JStr s).
  fold (promptFor s).
  destruct (model (promptFor s)) as [e|output]; [reflexivity|].
  now destruct (GeneratePoemFromImageOutputSchema output).
Qed.

(** C1 (as amended). Every input whose [photoDataUri] is a string passes
    the local schema check, data URI or not: the model is invoked, once,
    with that string as the media reference, and the call does not fail with
    an input-schema violation.  The flow fails from local validation, with
    no model invocation, exactly for the inputs that are not an object with
    a string [photoDataUri]. *)
Theorem input_schema_checks_type_only :
  (forall s,
     GeneratePoemFromImageInputSchema (request s) = true /\
     snd (run (generatePoemFromImage model (request s))) =
       [ModelCall (promptFor s)] /\
     fst (run (generatePoemFromImage model (request s))) <>
       inl InputSchemaViolation) /\
  (forall input,
     Zod.objectWithString "photoDataUri" input = false <->
     run (generatePoemFromImage model input) = (inl InputSchemaViolation, [])).
Proof.
  split.
  - intros s. split; [reflexivity|]. rewrite run_request.
    destruct (model (promptFor s)) as [e|output].
    + split; [reflexivity | discriminate].
    + destruct (GeneratePoemFromImageOutputSchema output);
        (split; [reflexivity | discriminate]).
  - intros input.
    unfold run, generatePoemFromImage, generatePoemFromImageFlow,
      generatePoemPrompt, GeneratePoemFromImageInputSchema,
      bind, emit, throw, ret.
    destruct (Zod.objectWithString "photoDataUri" input); cbn [negb app].
    + split; [discriminate|].
      destruct (model _) as [e|output].
      * discriminate.
      * destruct (negb (GeneratePoemFromImageOutputSchema output)); discriminate.
    + split; reflexivity.
Qed.

(** C2 (as amended). When the model's output holds a string under [poem],
    empty or not, the call returns that output, so [result.poem] is exactly
    that string; when [poem] is missing or not a string (or there is no
    output object at all), the call fails with an output-schema violation. *)
Theorem output_schema_checks_type_only (s : string) (output : JSValue) :
  model (promptFor s) = inr output ->
  (forall p,
     poem output = JStr p ->
     run (generatePoemFromImage model (request s)) =
       (inr output, [ModelCall (promptFor s)])) /\
  (Zod.isString (poem output) = false ->
   run (generatePoemFromImage model (request s)) =
     (inl OutputSchemaViolation, [ModelCall (promptFor s)])).
Proof.
  intros Hmodel. rewrite run_request, Hmodel.
  unfold GeneratePoemFromImageOutputSchema, Zod.objectWithString, poem.
  split.
  - intros p Hp. destruct output; try discriminate. now rewrite Hp.
  - intros Hp. destruct output; try reflexivity. now rewrite Hp.
Qed.

End Facts.

End PoemFlowFacts.

(** ** The statements above at concrete scenarios *)

Module Scenarios.

Import JS Eff Actions Views ActionsFacts Fixtures.

(** C4 at the input [not a url]. *)
Lemma invalid_url_fails_without_request_witness :
  parsesAsUrl "not a url" = false /\
  exists r log,
    run (convertImageUrlToDataUrlAction parsesAsUrl unreachable "not a url")
      = (inr r, log) /\
    success r = false /\ dataUrl r = None /\
    error r = Some (JStr "Invalid URL format.") /\
    forall url headers, ~ In (Fetch url headers) log.
Proof.
  split; [reflexivity|].
  apply (invalid_url_fails_without_request parsesAsUrl unreachable).
  reflexivity.
Defined.

(** The run on a 2 KiB PNG served as [image/png]. *)
Lemma png_run :
  run (convertImageUrlToDataUrlAction parsesAsUrl (serving pngResponse) catUrl) =
  (inr (converted ("data:image/png;base64," ++ Base64.encode pngBody)),
   [Fetch catUrl requestHeaders; ReadArrayBuffer]).
Proof. vm_compute. reflexivity. Qed.

(** C3 at that PNG: the payload's MIME type is [image/png]. *)
Lemma converted_dataUrl_shape_witness :
  run (convertImageUrlToDataUrlAction parsesAsUrl (serving pngResponse) catUrl) =
    (inr (converted ("data:image/png;base64," ++ Base64.encode pngBody)),
     [Fetch catUrl requestHeaders; ReadArrayBuffer]) /\
  success (converted ("data:image/png;base64," ++ Base64.encode pngBody)) = true /\
  exists response ct body,
    serving pngResponse catUrl requestHeaders = inr response /\
    contentType response = Some ct /\
    arrayBuffer response = inr body /\
    dataUrl (converted ("data:image/png;base64," ++ Base64.encode pngBody)) =
      Some ("data:" ++ ct ++ ";base64," ++ Base64.encode body) /\
    Base64.decode (Base64.encode body) = Some body.
Proof.
  split; [exact png_run|]. split; [reflexivity|].
  exact (converted_dataUrl_shape parsesAsUrl (serving pngResponse) catUrl
           _ _ png_run eq_refl).
Defined.


Lemma bigBody_length : (10 * 1024 * 1024 < byteLength bigBody)%N.
Proof.
  unfold byteLength, bigBody. rewrite repeat_length, N2Nat.id. reflexivity.
Qed.

(** C7 at an 11 MiB JPEG. *)
Lemma oversize_body_rejected_witness :
  parsesAsUrl catUrl = true /\
  ok bigResponse = true /\
  notAnImage (contentType bigResponse) = false /\
  arrayBuffer bigResponse = inr bigBody /\
  (10 * 1024 * 1024 < byteLength bigBody)%N /\
  exists r,
    run (convertImageUrlToDataUrlAction parsesAsUrl (serving bigResponse) catUrl) =
      (inr r, [Fetch catUrl requestHeaders; ReadArrayBuffer]) /\
    success r = false /\ dataUrl r = None /\
    error r = Some (JStr "Image size exceeds 10MB limit.").
Proof.
  do 4 (split; [reflexivity|]). split; [exact bigBody_length|].
  exact (oversize_body_rejected parsesAsUrl (serving bigResponse) catUrl
           bigResponse bigBody eq_refl eq_refl eq_refl eq_refl eq_refl
           bigBody_length).
Defined.

(** C8 at a 404 with an HTML body: the message holds the status text. *)
Lemma error_status_message_order_witness :
  parsesAsUrl catUrl = true /\
  ok notFoundPlain = false /\
  exists r,
    run (convertImageUrlToDataUrlAction parsesAsUrl (serving notFoundPlain) catUrl) =
      (inr r, [Fetch catUrl requestHeaders; ReadJson]) /\
    success r = false /\ dataUrl r = None /\
    error r = Some (JStr "Failed to fetch image: Not Found") /\
    (status notFoundPlain = 404%N -> jsonMessage notFoundPlain = None ->
     exists msg,
       error r = Some (JStr msg) /\
       (includes msg "404" = true \/
        (statusText notFoundPlain <> "" /\
         includes msg (statusText notFoundPlain) = true))).
Proof.
  do 2 (split; [reflexivity|]).
  exact (error_status_message_order parsesAsUrl (serving notFoundPlain) catUrl
           notFoundPlain eq_refl eq_refl eq_refl).
Defined.

(** C8, as stated, fails: a 404 whose JSON body carries a message is
    reported with that message, which holds neither ["404"] nor the status
    text. *)
Lemma json_message_hides_status :
  status notFoundJson = 404%N /\
  exists r,
    run (convertImageUrlToDataUrlAction parsesAsUrl (serving notFoundJson) catUrl) =
      (inr r, [Fetch catUrl requestHeaders; ReadJson]) /\
    success r = false /\
    error r = Some (JStr "gone fishing") /\
    includes "gone fishing" "404" = false /\
    includes "gone fishing" (statusText notFoundJson) = false.
Proof.
  split; [reflexivity|]. eexists.
  split; [vm_compute; reflexivity|]. repeat split.
Qed.



(** C10 at [image/svg+xml]. *)
Lemma remote_accepts_types_outside_list_witness :
  parsesAsUrl catUrl = true /\
  ok svgResponse = true /\
  contentType svgResponse = Some "image/svg+xml" /\
  startsWith "image/svg+xml" "image/" = true /\
  arrayIncludes ImageBardClient.ACCEPTED_IMAGE_TYPES "image/svg+xml" = false /\
  arrayBuffer svgResponse = inr (list_byte_of_string "<svg/>") /\
  list_byte_of_string "<svg/>" <> [] /\
  (byteLength (list_byte_of_string "<svg/>") <= 10 * 1024 * 1024)%N /\
  (exists r,
     run (convertImageUrlToDataUrlAction parsesAsUrl (serving svgResponse) catUrl) =
       (inr r, [Fetch catUrl requestHeaders; ReadArrayBuffer]) /\
     success r = true /\ error r = None /\
     dataUrl r = Some "data:image/svg+xml;base64,PHN2Zy8+") /\
  forall file others st,
    ImageBardClient.type file = "image/svg+xml" ->
    (ImageBardClient.size file <= ImageBardClient.MAX_FILE_SIZE)%N ->
    ImageBardClient.handleFileChange fileReader (Some (file :: others)) st =
      inr {| ImageBardClient.imagePreview := None;
             ImageBardClient.imageFileError :=
               Some ".jpg, .jpeg, .png, .webp and .gif files are accepted." |}.
Proof.
  assert (Hne : list_byte_of_string "<svg/>" <> []) by discriminate.
  assert (Hlen : (byteLength (list_byte_of_string "<svg/>")
                  <= 10 * 1024 * 1024)%N) by discriminate.
  do 6 (split; [reflexivity|]). split; [exact Hne|]. split; [exact Hlen|].
  exact (EnumerationFacts.remote_accepts_types_outside_list parsesAsUrl
           (serving svgResponse) fileReader catUrl svgResponse "image/svg+xml"
           (list_byte_of_string "<svg/>")
           eq_refl eq_refl eq_refl eq_refl eq_refl eq_refl eq_refl Hne Hlen).
Defined.

(** C5, as stated, fails: when the selection is an empty list, no file is
    present, yet nothing reports it: the schema throws before it can give a
    result, and [handleFileChange] leaves the state, with no message, as it
    was. *)
Lemma empty_selection_gets_no_message :
  (exists e, ImageBardClient.imageFileSafeParse (Some []) = inl e) /\
  ImageBardClient.handleFileChange fileReader (Some []) idle = inr idle /\
  ImageBardClient.imageFileError idle = None.
Proof. split; [eexists; reflexivity | split; reflexivity]. Qed.

(** C5 at a 6 MiB file of an accepted type. *)
Lemma oversize_file_gets_size_message_witness :
  (5 * 1024 * 1024 < ImageBardClient.size bigFile)%N /\
  ImageBardClient.handleFileChange fileReader (Some [bigFile]) idle =
    inr {| ImageBardClient.imagePreview := None;
           ImageBardClient.imageFileError := Some "Max file size is 5MB." |}.
Proof.
  split; [reflexivity|].
  exact (proj1 (ImageBardClientFacts.oversize_file_gets_size_message
                  fileReader bigFile [] idle eq_refl)).
Defined.

End Scenarios.

Module PoemScenarios.

Import JS Eff PoemFlow Views PoemFlowFacts.

(** C1, as stated, fails: ["hello"] has none of the three parts of a data
    URI, yet the call passes validation, invokes the model with it and
    returns the poem. *)
Lemma malformed_data_uri_reaches_model :
  specWellFormedDataUri "hello" = false /\
  run (generatePoemFromImage (answering "Roses are red") (request "hello")) =
    (inr (JObj [("poem", JStr "Roses are red")]),
     [ModelCall (promptFor "hello")]).
Proof. split; reflexivity. Qed.

(** C2, as stated, fails: a model output whose [poem] is the empty string
    is returned, not refused. *)
Lemma empty_poem_is_returned :
  run (generatePoemFromImage (answering "")
         (request "data:image/png;base64,iVBORw0KGgo=")) =
    (inr (JObj [("poem", JStr "")]),
     [ModelCall (promptFor "data:image/png;base64,iVBORw0KGgo=")]) /\
  specWellFormedDataUri "data:image/png;base64,iVBORw0KGgo=" = true /\
  poem (JObj [("poem", JStr "")]) = JStr "".
Proof. repeat split; reflexivity. Qed.

(** C2 at a model that answers with a poem. *)
Lemma output_schema_checks_type_only_witness :
  answering "Roses are red" (promptFor "data:image/png;base64,iVBORw0KGgo=")
    = inr (JObj [("poem", JStr "Roses are red")]) /\
  (forall p,
     poem (JObj [("poem", JStr "Roses are red")]) = JStr p ->
     run (generatePoemFromImage (answering "Roses are red")
            (request "data:image/png;base64,iVBORw0KGgo=")) =
       (inr (JObj [("poem", JStr "Roses are red")]),
        [ModelCall (promptFor "data:image/png;base64,iVBORw0KGgo=")])) /\
  (Zod.isString (poem (JObj [("poem", JStr "Roses are red")])) = false ->
   run (generatePoemFromImage (answering "Roses are red")
          (request "data:image/png;base64,iVBORw0KGgo=")) =
     (inl OutputSchemaViolation,
      [ModelCall (promptFor "data:image/png;base64,iVBORw0KGgo=")])).
Proof.
  split; [reflexivity|].
  apply (output_schema_checks_type_only (answering "Roses are red")).
  reflexivity.
Defined.

End PoemScenarios.

(** * Further properties *)

(** ** [convertImageUrlToDataUrlAction]: results, log and sizes *)

Module ActionsMore.

Import JS Eff Actions Views Traces.

Lemma length_append (a b : string) :
  String.length (a ++ b) = String.length a + String.length b.
Proof. induction a as [|c a IH]; cbn; [reflexivity | now rewrite IH]. Qed.

Lemma encode_length (bs : list byte) :
  String.length (Base64.encode bs) = 4 * ((List.length bs + 2) / 3).
Proof.
  induction bs as [|a|a b|a b c l IH] using Base64Facts.list_ind3;
    try reflexivity.
  cbn [Base64.encode String.length List.length]. rewrite IH.
  replace (S (S (S (List.length l))) + 2) with (List.length l + 2 + 1 * 3) by lia.
  rewrite Nat.div_add by discriminate. lia.
Qed.

Section Facts.

Variable newURL : string -> bool.
Variable network : string -> list (string * string) -> Thrown + Response.

Local Notation "'action'" := (convertImageUrlToDataUrlAction newURL network)
  (only parsing).

(** Every call follows one of the paths. *)
Lemma run_follows_path (imageUrl : string) :
  exists r log,
    run (action imageUrl) = (inr r, log) /\ path newURL network imageUrl r log.
Proof.
  destruct (newURL imageUrl) eqn:Hurl.
  2: { eexists; eexists; split; [apply ActionsFacts.run_invalid_url, Hurl|].
       econstructor; eassumption. }
  destruct (network imageUrl requestHeaders) as [e|response] eqn:Hnet.
  { eexists; eexists; split;
      [apply (ActionsFacts.run_fetch_rejected _ _ _ _ Hurl Hnet)|].
    econstructor; eassumption. }
  destruct (ok response) eqn:Hstatus.
  2: { eexists; eexists; split;
         [apply (ActionsFacts.run_error_status _ _ _ _ Hurl Hnet Hstatus)|].
       econstructor; eassumption. }
  destruct (notAnImage (contentType response)) eqn:Himg.
  { eexists; eexists; split;
      [apply (ActionsFacts.run_not_image _ _ _ _ Hurl Hnet Hstatus Himg)|].
    econstructor; eassumption. }
  destruct (arrayBuffer response) as [e|body] eqn:Hbody.
  { eexists; eexists; split;
      [apply (ActionsFacts.run_body_rejected _ _ _ _ _ Hurl Hnet Hstatus Himg Hbody)|].
    econstructor; eassumption. }
  eexists; eexists; split;
    [apply (ActionsFacts.run_body_read _ _ _ _ _ Hurl Hnet Hstatus Himg Hbody)|].
  econstructor; eassumption.
Qed.

Lemma run_path (imageUrl : string) (r : ConversionResult) (log : list Event) :
  run (action imageUrl) = (inr r, log) -> path newURL network imageUrl r log.
Proof.
  intros H. destruct (run_follows_path imageUrl) as (r' & log' & Hrun & Hpath).
  rewrite Hrun in H. now inversion H; subst.
Qed.

(** X2. An image response whose body has no bytes is refused after the
    body read: the result has [success] false, no [dataUrl], and the
    empty-image message as its [error]. *)
Theorem empty_body_rejected (imageUrl : string) (response : Response) :
  newURL imageUrl = true ->
  network imageUrl requestHeaders = inr response ->
  ok response = true ->
  notAnImage (contentType response) = false ->
  arrayBuffer response = inr [] ->
  exists r,
    run (action imageUrl) =
      (inr r, [Fetch imageUrl requestHeaders; ReadArrayBuffer]) /\
    success r = false /\ dataUrl r = None /\
    error r = Some (JStr "Fetched image is empty.").
Proof.
  intros Hurl Hnet Hstatus Himg Hbody.
  eexists. split;
    [exact (ActionsFacts.run_body_read _ _ _ _ _ Hurl Hnet Hstatus Himg Hbody)|].
  repeat split.
Qed.

(** X3. The action succeeds exactly when the URL check passes, [fetch]
    resolves with a success status, the content type starts with [image/],
    and the body read resolves with between 1 byte and 10 MiB, both
    included. *)
Theorem success_iff (imageUrl : string) :
  (exists r log, run (action imageUrl) = (inr r, log) /\ success r = true) <->
  newURL imageUrl = true /\
  exists response ct body,
    network imageUrl requestHeaders = inr response /\
    ok response = true /\
    contentType response = Some ct /\
    startsWith ct "image/" = true /\
    arrayBuffer response = inr body /\
    (1 <= byteLength body <= 10 * 1024 * 1024)%N.
Proof.
  split.
  - intros (r & log & Hrun & Hok). apply run_path in Hrun.
    destruct Hrun as [ | | | | | response body Hurl Hnet Hstatus Himg Hbody];
      try discriminate.
    split; [assumption|].
    destruct (contentType response) as [ct|] eqn:Hct; [|discriminate].
    exists response, ct, body. repeat split; try assumption.
    + unfold notAnImage in Himg. apply orb_false_elim in Himg.
      now apply negb_false_iff.
    + unfold afterBody in Hok.
      destruct (N.eqb_spec (byteLength body) 0); [discriminate | lia].
    + unfold afterBody in Hok.
      destruct (byteLength body =? 0)%N; [discriminate|].
      destruct (N.ltb_spec (10 * 1024 * 1024) (byteLength body));
        [discriminate | assumption].
  - intros (Hurl & response & ct & body & Hnet & Hstatus & Hct & Hpre & Hbody
            & Hlo & Hhi).
    assert (Himg : notAnImage (contentType response) = false).
    { rewrite Hct. unfold notAnImage. rewrite Hpre.
      destruct ct; [discriminate | reflexivity]. }
    eexists; eexists. split;
      [apply (ActionsFacts.run_body_read _ _ _ _ _ Hurl Hnet Hstatus Himg Hbody)|].
    unfold afterBody.
    replace (byteLength body =? 0)%N with false
      by (symmetry; apply N.eqb_neq; lia).
    replace (10 * 1024 * 1024 <? byteLength body)%N with false
      by (symmetry; apply N.ltb_ge, Hhi).
    reflexivity.
Qed.

(** X4. A call of the action calls [fetch] once when the URL check passes
    and not at all when it fails: never a second time.  The call is made
    with the URL given and an options object whose only header is the fixed
    [User-Agent]. *)
Theorem one_request_per_call (imageUrl : string) :
  filter isFetch (snd (run (action imageUrl))) =
  if newURL imageUrl
  then [Fetch imageUrl [("User-Agent", userAgent)]]
  else [].
Proof.
  destruct (run_follows_path imageUrl) as (r & log & Hrun & Hpath).
  rewrite Hrun. cbn [snd].
  destruct Hpath as [Hurl | e Hurl | ? Hurl | ? Hurl | ? ? Hurl | ? ? Hurl];
    rewrite Hurl; reflexivity.
Qed.

(** X5. The body is read only from a response with a success status and an
    image content type, and a JSON body only from a response with an error
    status; no call reads both. *)
Theorem reads_follow_status_and_type (imageUrl : string) :
  (In ReadArrayBuffer (snd (run (action imageUrl))) ->
   exists response ct,
     network imageUrl requestHeaders = inr response /\
     ok response = true /\
     contentType response = Some ct /\ startsWith ct "image/" = true) /\
  (In ReadJson (snd (run (action imageUrl))) ->
   exists response,
     network imageUrl requestHeaders = inr response /\ ok response = false) /\
  ~ (In ReadJson (snd (run (action imageUrl))) /\
     In ReadArrayBuffer (snd (run (action imageUrl)))).
Proof.
  assert (Himage : forall response,
    notAnImage (contentType response) = false ->
    exists ct, contentType response = Some ct /\ startsWith ct "image/" = true).
  { intros response H. destruct (contentType response) as [ct|]; [|discriminate].
    exists ct. split; [reflexivity|].
    unfold notAnImage in H. apply orb_false_elim in H.
    now apply negb_false_iff. }
  destruct (run_follows_path imageUrl) as (r & log & Hrun & Hpath).
  rewrite Hrun. cbn [snd].
  destruct Hpath as [Hurl | e Hurl Hnet | response Hurl Hnet Hstatus
    | response Hurl Hnet Hstatus Himg | response e Hurl Hnet Hstatus Himg Hbody
    | response body Hurl Hnet Hstatus Himg Hbody]; cbn [In].
  - repeat split; intros; intuition discriminate.
  - repeat split; intros; intuition discriminate.
  - split; [intros; intuition discriminate|].
    split; [intros _; now exists response | intuition discriminate].
  - repeat split; intros; intuition discriminate.
  - split.
    + intros _. destruct (Himage _ Himg) as (ct & Hct & Hpre).
      now exists response, ct.
    + split; intros; intuition discriminate.
  - split.
    + intros _. destruct (Himage _ Himg) as (ct & Hct & Hpre).
      now exists response, ct.
    + split; intros; intuition discriminate.
Qed.

(** X6. The length of a returned [dataUrl] is 13 plus the length of the
    content type plus four characters for every three bytes of the body,
    rounded up; it is therefore at most 13,981,029 characters plus the
    length of the content type. *)
Theorem dataUrl_length (imageUrl : string) (r : ConversionResult)
    (log : list Event) (d : string) :
  run (action imageUrl) = (inr r, log) ->
  dataUrl r = Some d ->
  exists response ct body,
    network imageUrl requestHeaders = inr response /\
    contentType response = Some ct /\
    arrayBuffer response = inr body /\
    N.of_nat (String.length d) =
      (13 + N.of_nat (String.length ct) + 4 * ((byteLength body + 2) / 3))%N /\
    (N.of_nat (String.length d) <= 13981029 + N.of_nat (String.length ct))%N.
Proof.
  intros Hrun Hd. apply run_path in Hrun.
  destruct Hrun as [ | | | | | response body Hurl Hnet Hstatus Himg Hbody];
    try discriminate.
  destruct (contentType response) as [ct|] eqn:Hct; [|discriminate].
  exists response, ct, body. do 3 (split; [assumption|]).
  unfold afterBody in Hd. rewrite Hct in Hd. cbn [nullableToString] in Hd.
  destruct (byteLength body =? 0)%N; [discriminate|].
  destruct (N.ltb_spec (10 * 1024 * 1024) (byteLength body)) as [|Hhi];
    [discriminate|].
  assert (Hd' : d = "data:" ++ ct ++ ";base64," ++ Base64.encode body)
    by (now injection Hd).
  subst d. clear Hd.
  assert (Hlen : N.of_nat (String.length
                   ("data:" ++ ct ++ ";base64," ++ Base64.encode body)) =
                 (13 + N.of_nat (String.length ct)
                  + 4 * ((byteLength body + 2) / 3))%N).
  { rewrite !length_append, encode_length. unfold byteLength.
    change (String.length "data:") with 5.
    change (String.length ";base64,") with 8.
    rewrite !Nat2N.inj_add, Nat2N.inj_mul, Nat2N.inj_div, Nat2N.inj_add.
    change (N.of_nat 5) with 5%N. change (N.of_nat 8) with 8%N.
    change (N.of_nat 4) with 4%N. change (N.of_nat 3) with 3%N.
    change (N.of_nat 2) with 2%N. lia. }
  split; [exact Hlen|]. rewrite Hlen.
  assert ((byteLength body + 2) / 3 <= 3495254)%N.
  { apply N.Div0.div_le_upper_bound. lia. }
  lia.
Qed.

End Facts.

End ActionsMore.

(** ** The file schema and [handleFileChange]: acceptance and guards *)

Module ImageBardClientMore.

Import JS ImageBardClient.

Lemma arrayIncludes_In (l : list string) (x : string) :
  arrayIncludes l x = true <-> In x l.
Proof.
  unfold arrayIncludes. rewrite existsb_exists. split.
  - intros (y & Hy & Heq). apply String.eqb_eq in Heq. now subst.
  - intros H. exists x. split; [assumption | apply String.eqb_refl].
Qed.

Lemma safeParse_first (f : File) (fs : list File) :
  imageFileSafeParse (Some (f :: fs)) =
  inr (if (size f <=? MAX_FILE_SIZE)%N
       then if arrayIncludes ACCEPTED_IMAGE_TYPES (type f)
            then Zod.Success (Some (f :: fs))
            else Zod.Failure typeMessage []
       else Zod.Failure sizeMessage
              (if arrayIncludes ACCEPTED_IMAGE_TYPES (type f)
               then [] else [typeMessage])).
Proof.
  unfold imageFileSafeParse, Zod.customRefined, imageFile.
  cbn [Zod.runRefinements Zod.check Zod.message isPresent withinSize
       hasAcceptedType firstFile List.length Nat.ltb Nat.leb].
  destruct (size f <=? MAX_FILE_SIZE)%N;
    now destruct (arrayIncludes ACCEPTED_IMAGE_TYPES (type f)).
Qed.

(** X7. The file schema accepts a selection exactly when its first file is
    at most 5 MiB (5 MiB itself included) and its type is one of the four
    listed; the parsed value is the selection itself. *)
Theorem selection_accepted_iff (f : File) (fs : list File) :
  imageFileSafeParse (Some (f :: fs)) = inr (Zod.Success (Some (f :: fs))) <->
  (size f <= 5 * 1024 * 1024)%N /\
  (type f = "image/jpeg" \/ type f = "image/png" \/
   type f = "image/webp" \/ type f = "image/gif").
Proof.
  rewrite safeParse_first.
  assert (Hin : arrayIncludes ACCEPTED_IMAGE_TYPES (type f) = true <->
                (type f = "image/jpeg" \/ type f = "image/png" \/
                 type f = "image/webp" \/ type f = "image/gif")).
  { rewrite arrayIncludes_In. cbn [ACCEPTED_IMAGE_TYPES In].
    intuition congruence. }
  destruct (N.leb_spec (size f) MAX_FILE_SIZE) as [Hle|Hgt].
  - destruct (arrayIncludes ACCEPTED_IMAGE_TYPES (type f)).
    + split; [intros _; split; [exact Hle | now apply Hin] | reflexivity].
    + split; [discriminate|]. intros [_ H]. apply Hin in H. discriminate.
  - split; [discriminate|]. intros [H _].
    unfold MAX_FILE_SIZE in Hgt. lia.
Qed.

Section Handler.

Variable readAsDataURL : File -> option string.

(** X8. [handleFileChange] never throws, and leaves the state as it is when
    there is no file (a [null] list or an empty one).  Its guard matters: the
    schema by itself throws on an empty list, because its second refinement
    reads [files[0].size]. *)
Theorem handleFileChange_never_throws (files : FileList) (st : State) :
  (exists st', handleFileChange readAsDataURL files st = inr st') /\
  (files = None \/ files = Some [] ->
   handleFileChange readAsDataURL files st = inr st) /\
  exists e, imageFileSafeParse (Some []) = inl e.
Proof.
  split; [|split].
  - destruct files as [[|f fs]|]; try (eexists; reflexivity).
    unfold handleFileChange. rewrite safeParse_first.
    destruct (size f <=? MAX_FILE_SIZE)%N;
      destruct (arrayIncludes ACCEPTED_IMAGE_TYPES (type f));
      eexists; reflexivity.
  - intros [-> | ->]; reflexivity.
  - eexists. reflexivity.
Qed.

(** X9. A first file within the size limit and of a listed type is handed
    to the reader: the preview becomes the reader's result and the form
    error is cleared. *)
Theorem accepted_file_previewed (f : File) (others : list File) (st : State) :
  (size f <= 5 * 1024 * 1024)%N ->
  In (type f) ACCEPTED_IMAGE_TYPES ->
  handleFileChange readAsDataURL (Some (f :: others)) st =
  inr {| imagePreview := readAsDataURL f; imageFileError := None |}.
Proof.
  intros Hsize Htype. unfold handleFileChange. rewrite safeParse_first.
  replace (size f <=? MAX_FILE_SIZE)%N with true
    by (symmetry; apply N.leb_le, Hsize).
  apply arrayIncludes_In in Htype. now rewrite Htype.
Qed.

(** X10. Only the first file of a selection counts: neither the other
    files nor the state before the change affect the outcome. *)
Theorem only_first_file_counts (f : File) (others others' : list File)
    (st st' : State) :
  handleFileChange readAsDataURL (Some (f :: others)) st =
  handleFileChange readAsDataURL (Some (f :: others')) st'.
Proof.
  unfold handleFileChange. rewrite !safeParse_first.
  destruct (size f <=? MAX_FILE_SIZE)%N;
    now destruct (arrayIncludes ACCEPTED_IMAGE_TYPES (type f)).
Qed.

End Handler.

End ImageBardClientMore.

(** ** The poem flow: success, failure and the number of model calls *)

Module PoemFlowMore.

Import JS Eff PoemFlow Views.

Section Facts.

Variable model : Prompt -> Thrown + JSValue.

Lemma run_valid (fields : list (string * JSValue)) (s : string) :
  lookup "photoDataUri" fields = JStr s ->
  run (generatePoemFromImage model (JObj fields)) =
  match model (promptFor s) with
  | inl e => (inl (ModelFailure e), [ModelCall (promptFor s)])
  | inr output =>
      if GeneratePoemFromImageOutputSchema output
      then (inr output, [ModelCall (promptFor s)])
      else (inl OutputSchemaViolation, [ModelCall (promptFor s)])
  end.
Proof.
  intros Hs.
  unfold run, generatePoemFromImage, generatePoemFromImageFlow,
    generatePoemPrompt, GeneratePoemFromImageInputSchema,
    Zod.objectWithString, bind, emit, throw, ret.
  rewrite Hs. cbn [Zod.isString negb app]. fold (promptFor s).
  destruct (model (promptFor s)) as [e|output]; [reflexivity|].
  now destruct (GeneratePoemFromImageOutputSchema output).
Qed.

Lemma run_invalid (input : JSValue) :
  GeneratePoemFromImageInputSchema input = false ->
  run (generatePoemFromImage model input) = (inl InputSchemaViolation, []).
Proof.
  intros H.
  unfold run, generatePoemFromImage, generatePoemFromImageFlow, throw.
  now rewrite H.
Qed.

Lemma valid_input (input : JSValue) :
  GeneratePoemFromImageInputSchema input = true ->
  exists fields s, input = JObj fields /\ lookup "photoDataUri" fields = JStr s.
Proof.
  unfold GeneratePoemFromImageInputSchema, Zod.objectWithString.
  destruct input as [| | | | |items|fields]; try discriminate.
  destruct (lookup "photoDataUri" fields) eqn:Hs; try discriminate.
  intros _. eexists; eexists; split; [reflexivity | eassumption].
Qed.

Lemma string_poem (output : JSValue) :
  GeneratePoemFromImageOutputSchema output = true <->
  exists p, poem output = JStr p.
Proof.
  unfold GeneratePoemFromImageOutputSchema, Zod.objectWithString, poem.
  destruct output as [| | | | |items|fields];
    try (split; [discriminate | intros [p H]; discriminate]).
  destruct (lookup "poem" fields);
    try (split; [discriminate | intros [p H]; discriminate]).
  split; [intros _; now eexists | reflexivity].
Qed.

(** X11. A call returns a result exactly when the input is an object with
    a string [photoDataUri] (other keys are not looked at), the model
    answers, and its output holds a string under [poem].  The result is then
    the model's output itself, unchanged, after exactly one model call. *)
Theorem flow_returns_iff (input output : JSValue) (log : list Event) :
  run (generatePoemFromImage model input) = (inr output, log) <->
  exists fields s p,
    input = JObj fields /\
    lookup "photoDataUri" fields = JStr s /\
    model (promptFor s) = inr output /\
    poem output = JStr p /\
    log = [ModelCall (promptFor s)].
Proof.
  split.
  - intros Hrun.
    destruct (GeneratePoemFromImageInputSchema input) eqn:Hin.
    2: { rewrite (run_invalid _ Hin) in Hrun. discriminate. }
    destruct (valid_input _ Hin) as (fields & s & -> & Hs).
    rewrite (run_valid _ _ Hs) in Hrun.
    destruct (model (promptFor s)) as [e|out] eqn:Hmodel; [discriminate|].
    destruct (GeneratePoemFromImageOutputSchema out) eqn:Hout; [|discriminate].
    inversion Hrun; subst.
    apply string_poem in Hout. destruct Hout as [p Hp].
    now exists fields, s, p.
  - intros (fields & s & p & -> & Hs & Hmodel & Hp & ->).
    rewrite (run_valid _ _ Hs), Hmodel.
    replace (GeneratePoemFromImageOutputSchema output) with true; [reflexivity|].
    symmetry. apply string_poem. now exists p.
Qed.

(** X12. A failure of the model invocation is passed on as it is, after
    that one call: the flow does not call the model again. *)
Theorem model_failure_propagates (fields : list (string * JSValue))
    (s : string) (e : Thrown) :
  lookup "photoDataUri" fields = JStr s ->
  model (promptFor s) = inl e ->
  run (generatePoemFromImage model (JObj fields)) =
  (inl (ModelFailure e), [ModelCall (promptFor s)]).
Proof.
  intros Hs Hmodel. now rewrite (run_valid _ _ Hs), Hmodel.
Qed.

(** X13. Whatever the input and the model do, the model is called at most
    once, and a call always carries the fixed prompt text, with the input's
    [photoDataUri] as its only variable part. *)
Theorem at_most_one_model_call (input : JSValue) :
  snd (run (generatePoemFromImage model input)) = [] \/
  exists fields s,
    input = JObj fields /\ lookup "photoDataUri" fields = JStr s /\
    snd (run (generatePoemFromImage model input)) =
      [ModelCall {| text := promptText; mediaUrl := JStr s |}].
Proof.
  destruct (GeneratePoemFromImageInputSchema input) eqn:Hin.
  2: { left. now rewrite (run_invalid _ Hin). }
  right. destruct (valid_input _ Hin) as (fields & s & -> & Hs).
  exists fields, s. split; [reflexivity|]. split; [assumption|].
  rewrite (run_valid _ _ Hs).
  destruct (model (promptFor s)) as [e|out]; [reflexivity|].
  now destruct (GeneratePoemFromImageOutputSchema out).
Qed.

End Facts.

End PoemFlowMore.

(** ** The component's handlers, alone and with the action and the flow *)

Module ComponentFacts.

Import JS Eff Component Views.

(** The server action as the client calls it, when the call itself goes
    through. *)
Definition serverAction (newURL : string -> bool)
    (network : string -> list (string * string) -> Thrown + Actions.Response)
    : string -> Thrown + Actions.ConversionResult :=
  fun imageUrl =>
    fst (run (Actions.convertImageUrlToDataUrlAction newURL network imageUrl)).

(** The flow as the client calls it; [rejection] is the exception a failed
    call reaches the client as. *)
Definition flowCall (model : PoemFlow.Prompt -> Thrown + JSValue)
    (rejection : PoemFlow.GenerationError -> Thrown)
    : JSValue -> Thrown + JSValue :=
  fun input =>
    match fst (run (PoemFlow.generatePoemFromImage model input)) with
    | inr output => inr output
    | inl failure => inl (rejection failure)
    end.

Ltac unfold_ui :=
  unfold resetOnChange, onUrlSubmitBegin, onUrlSubmitSettle, triggerSettle,
    setError, setGeneratedPoem, setImagePreview, setIsLoading;
  cbn.

Lemma samePreview_refl (v : option string) : samePreview v v = true.
Proof. destruct v; [apply String.eqb_refl | reflexivity]. Qed.

Lemma sameTab_refl (t : Tab) : sameTab t t = true.
Proof. now destruct t. Qed.

Section Any.

Variable convert : string -> Thrown + Actions.ConversionResult.
Variable generate : JSValue -> Thrown + JSValue.

(** X14. However the call to the action ends (a result or a rejection),
    a URL submission ends with the loading flag off and no poem, and with
    either a non-empty preview, no error and no toast, or no preview, an
    error and one destructive toast that carries the same message. *)
Theorem url_submission_settles (imageUrl : string) (st : UiState) :
  isLoading (fst (onUrlSubmit convert imageUrl st)) = false /\
  generatedPoem (fst (onUrlSubmit convert imageUrl st)) = None /\
  activeTab (fst (onUrlSubmit convert imageUrl st)) = activeTab st /\
  ((exists d,
      imagePreview (fst (onUrlSubmit convert imageUrl st)) = Some d /\
      d <> "" /\
      error (fst (onUrlSubmit convert imageUrl st)) = None /\
      snd (onUrlSubmit convert imageUrl st) = [CallConvert imageUrl]) \/
   (exists shown,
      imagePreview (fst (onUrlSubmit convert imageUrl st)) = None /\
      error (fst (onUrlSubmit convert imageUrl st)) = Some shown /\
      snd (onUrlSubmit convert imageUrl st) =
        [CallConvert imageUrl; ShowToast (destructive "Error" shown)])).
Proof.
  unfold onUrlSubmit, onUrlSubmitSettle.
  destruct (convert imageUrl) as [e|[ok [d|] err]]; cbn.
  - repeat split. right. eexists. repeat split.
  - destruct ok; cbn.
    + destruct (String.eqb_spec d ""); cbn.
      * repeat split. right. eexists. repeat split.
      * repeat split. left. exists d. repeat split. assumption.
    + repeat split. right. eexists. repeat split.
  - destruct ok; cbn; repeat split; right; eexists; repeat split.
Qed.

(** X16. Without a preview (none, or an empty one) a request for a poem
    calls nothing: it stores the upload-first error, shows it in one toast
    and leaves the preview, the poem and the loading flag as they were. *)
Theorem no_image_no_generation (st : UiState) :
  imagePreview st = None \/ imagePreview st = Some "" ->
  triggerPoemGeneration generate st =
  ({| imagePreview := imagePreview st; generatedPoem := generatedPoem st;
      isLoading := isLoading st;
      error := Some (JStr "Please upload an image first.");
      activeTab := activeTab st |},
   [ShowToast (destructive "Error" (JStr "Please upload an image first."))]).
Proof.
  unfold triggerPoemGeneration, setError.
  intros [H | H]; rewrite H; reflexivity.
Qed.

(** X20. The reset effect, run after each of the two batches of writes of
    a handler, changes nothing of what the handler wrote: not after the
    writes that start a URL submission or a poem request, and not after the
    writes that end one. *)
Theorem reset_effect_keeps_handler_writes (st : UiState)
    (converted : Thrown + Actions.ConversionResult)
    (generated : Thrown + JSValue) :
  resetOnChange st (onUrlSubmitBegin st) = onUrlSubmitBegin st /\
  resetOnChange (onUrlSubmitBegin st)
    (fst (onUrlSubmitSettle converted (onUrlSubmitBegin st))) =
    fst (onUrlSubmitSettle converted (onUrlSubmitBegin st)) /\
  resetOnChange st
    (setGeneratedPoem None (setError None (setIsLoading true st))) =
    setGeneratedPoem None (setError None (setIsLoading true st)) /\
  resetOnChange
    (setGeneratedPoem None (setError None (setIsLoading true st)))
    (fst (triggerSettle generated
            (setGeneratedPoem None (setError None (setIsLoading true st))))) =
    fst (triggerSettle generated
           (setGeneratedPoem None (setError None (setIsLoading true st)))).
Proof.
  split; [|split; [|split]].
  - unfold_ui. now destruct (samePreview (imagePreview st) None && _).
  - destruct converted as [e|[[] [d|] err]]; unfold_ui;
      rewrite ?sameTab_refl; try reflexivity.
    destruct (negb (d =? "")%string); cbn; now rewrite ?sameTab_refl.
  - unfold_ui. now rewrite samePreview_refl, sameTab_refl.
  - destruct generated as [e|result]; unfold_ui;
      [now rewrite samePreview_refl, sameTab_refl|].
    destruct (getProp result "poem"); cbn;
      now rewrite samePreview_refl, sameTab_refl.
Qed.

End Any.

Section Composed.

Variable newURL : string -> bool.
Variable network : string -> list (string * string) -> Thrown + Actions.Response.
Variable model : PoemFlow.Prompt -> Thrown + JSValue.
Variable rejection : PoemFlow.GenerationError -> Thrown.


(** X17. With the flow behind the call: from a state with a non-empty
    preview, when the model answers with a string under [poem], that string
    is stored as the poem, with no error and no toast, after one call whose
    input is [{ photoDataUri: preview }].  The poem card then renders that
    string when it is not empty, and is not rendered when it is empty; the
    error box is not rendered. *)
Theorem generated_poem_is_shown (st : UiState) (d p : string)
    (output : JSValue) :
  imagePreview st = Some d ->
  d <> "" ->
  model (promptFor d) = inr output ->
  PoemFlow.poem output = JStr p ->
  triggerPoemGeneration (flowCall model rejection) st =
    ({| imagePreview := Some d; generatedPoem := Some (JStr p);
        isLoading := false; error := None; activeTab := activeTab st |},
     [CallGenerate (PoemFlow.request d)]) /\
  poemCard (fst (triggerPoemGeneration (flowCall model rejection) st)) =
    (if String.eqb p "" then None else Some (JStr p)) /\
  errorBox (fst (triggerPoemGeneration (flowCall model rejection) st)) = None.
Proof.
  intros Hd Hne Hmodel Hp.
  assert (Hrun : triggerPoemGeneration (flowCall model rejection) st =
    ({| imagePreview := Some d; generatedPoem := Some (JStr p);
        isLoading := false; error := None; activeTab := activeTab st |},
     [CallGenerate (PoemFlow.request d)])).
  { unfold triggerPoemGeneration. rewrite Hd. cbn [truthy].
    replace (d =? "")%string with false
      by (symmetry; now apply String.eqb_neq).
    cbn [negb]. unfold flowCall.
    change (JObj [("photoDataUri", JStr d)]) with (PoemFlow.request d).
    rewrite (PoemFlowFacts.run_request model d), Hmodel.
    replace (PoemFlow.GeneratePoemFromImageOutputSchema output) with true.
    2: { symmetry. apply PoemFlowMore.string_poem. now exists p. }
    cbn [fst]. unfold triggerSettle.
    destruct output as [| | | | |items|fields]; try discriminate.
    cbn [getProp]. cbn [PoemFlow.poem] in Hp. rewrite Hp.
    unfold setIsLoading, setGeneratedPoem, setError. cbn. now rewrite Hd. }
  rewrite Hrun. split; [reflexivity|]. split; [|reflexivity].
  unfold poemCard. cbn. now destruct (String.eqb p "").
Qed.


(** X19. End to end, for a content type without a space: after a URL
    submission on which the action succeeds, a poem request runs the flow on
    the data URL the action built from the response; the flow calls the
    model once, with that data URL as the media reference, and returns its
    output; the model's poem is stored, and the poem card renders it when it
    is not empty. *)
Theorem url_to_poem (imageUrl : string) (st : UiState)
    (response : Actions.Response) (ct : string) (body : list byte)
    (output : JSValue) (p : string) :
  newURL imageUrl = true ->
  network imageUrl Actions.requestHeaders = inr response ->
  Actions.ok response = true ->
  Actions.contentType response = Some ct ->
  startsWith ct "image/" = true ->
  includes ct " " = false ->
  Actions.arrayBuffer response = inr body ->
  (1 <= Actions.byteLength body <= 10 * 1024 * 1024)%N ->
  model (promptFor ("data:" ++ ct ++ ";base64," ++ Base64.encode body))
    = inr output ->
  PoemFlow.poem output = JStr p ->
  p <> "" ->
  triggerPoemGeneration (flowCall model rejection)
    (fst (onUrlSubmit (serverAction newURL network) imageUrl st)) =
    ({| imagePreview := Some ("data:" ++ ct ++ ";base64," ++ Base64.encode body);
        generatedPoem := Some (JStr p); isLoading := false; error := None;
        activeTab := activeTab st |},
     [CallGenerate
        (PoemFlow.request ("data:" ++ ct ++ ";base64," ++ Base64.encode body))]) /\
  run (PoemFlow.generatePoemFromImage model
         (PoemFlow.request ("data:" ++ ct ++ ";base64," ++ Base64.encode body))) =
    (inr output,
     [PoemFlow.ModelCall
        {| PoemFlow.text := PoemFlow.promptText;
           PoemFlow.mediaUrl :=
             JStr ("data:" ++ ct ++ ";base64," ++ Base64.encode body) |}]) /\
  poemCard
    (fst (triggerPoemGeneration (flowCall model rejection)
            (fst (onUrlSubmit (serverAction newURL network) imageUrl st)))) =
    Some (JStr p).
Proof.
  intros Hurl Hnet Hstatus Hct Hpre Hspace Hbody [Hlo Hhi] Hmodel Hp Hpne.
  assert (Himg : Actions.notAnImage (Actions.contentType response) = false).
  { rewrite Hct. unfold Actions.notAnImage. rewrite Hpre.
    destruct ct; [discriminate | reflexivity]. }
  assert (Hsubmit :
    fst (onUrlSubmit (serverAction newURL network) imageUrl st) =
    {| imagePreview := Some ("data:" ++ ct ++ ";base64," ++ Base64.encode body);
       generatedPoem := None; isLoading := false; error := None;
       activeTab := activeTab st |}).
  { unfold onUrlSubmit, serverAction.
    rewrite (ActionsFacts.run_body_read _ _ _ _ _ Hurl Hnet Hstatus Himg Hbody).
    cbn [fst]. unfold afterBody. rewrite Hct.
    replace (Actions.byteLength body =? 0)%N with false
      by (symmetry; apply N.eqb_neq; lia).
    replace (10 * 1024 * 1024 <? Actions.byteLength body)%N with false
      by (symmetry; apply N.ltb_ge, Hhi).
    reflexivity. }
  rewrite Hsubmit. clear Hsubmit.
  assert (Hne : "data:" ++ ct ++ ";base64," ++ Base64.encode body <> "")
    by discriminate.
  set (d := "data:" ++ ct ++ ";base64," ++ Base64.encode body) in *.
  assert (Hschema : PoemFlow.GeneratePoemFromImageOutputSchema output = true)
    by (apply PoemFlowMore.string_poem; now exists p).
  assert (Hflow :
    run (PoemFlow.generatePoemFromImage model (PoemFlow.request d)) =
    (inr output, [PoemFlow.ModelCall (promptFor d)])).
  { now rewrite (PoemFlowFacts.run_request model d), Hmodel, Hschema. }
  assert (Hrun :
    triggerPoemGeneration (flowCall model rejection)
      {| imagePreview := Some d; generatedPoem := None; isLoading := false;
         error := None; activeTab := activeTab st |} =
    ({| imagePreview := Some d; generatedPoem := Some (JStr p);
        isLoading := false; error := None; activeTab := activeTab st |},
     [CallGenerate (PoemFlow.request d)])).
  { unfold triggerPoemGeneration. cbn [imagePreview truthy].
    replace (d =? "")%string with false
      by (symmetry; now apply String.eqb_neq).
    cbn [negb]. unfold flowCall.
    change (JObj [("photoDataUri", JStr d)]) with (PoemFlow.request d).
    rewrite Hflow. cbn [fst]. unfold triggerSettle.
    destruct output as [| | | | |items|fields]; try discriminate.
    cbn [getProp]. cbn [PoemFlow.poem] in Hp. now rewrite Hp. }
  rewrite Hrun. split; [reflexivity|]. split; [exact Hflow|].
  unfold poemCard. cbn.
  replace (p =? "")%string with false
    by (symmetry; now apply String.eqb_neq).
  reflexivity.
Qed.

End Composed.

End ComponentFacts.

(** ** The further statements at concrete scenarios *)

Module MoreScenarios.

Import JS Eff Views Fixtures MoreFixtures.

(** X2 at an image response with no bytes. *)
Lemma empty_body_rejected_witness :
  parsesAsUrl catUrl = true /\
  Actions.ok emptyResponse = true /\
  Actions.arrayBuffer emptyResponse = inr [] /\
  exists r,
    run (Actions.convertImageUrlToDataUrlAction parsesAsUrl
           (serving emptyResponse) catUrl) =
      (inr r,
       [Actions.Fetch catUrl Actions.requestHeaders; Actions.ReadArrayBuffer]) /\
    Actions.success r = false /\ Actions.dataUrl r = None /\
    Actions.error r = Some (JStr "Fetched image is empty.").
Proof.
  do 3 (split; [reflexivity|]).
  exact (ActionsMore.empty_body_rejected parsesAsUrl (serving emptyResponse)
           catUrl emptyResponse eq_refl eq_refl eq_refl eq_refl eq_refl).
Defined.

(** X6 at the 2 KiB PNG: 13 + 9 + 4 * 683 characters. *)
Lemma dataUrl_length_witness :
  run (Actions.convertImageUrlToDataUrlAction parsesAsUrl
         (serving pngResponse) catUrl) =
    (inr (Actions.converted
            ("data:image/png;base64," ++ Base64.encode pngBody)),
     [Actions.Fetch catUrl Actions.requestHeaders; Actions.ReadArrayBuffer]) /\
  exists response ct body,
    serving pngResponse catUrl Actions.requestHeaders = inr response /\
    Actions.contentType response = Some ct /\
    Actions.arrayBuffer response = inr body /\
    N.of_nat (String.length
                ("data:image/png;base64," ++ Base64.encode pngBody)) =
      (13 + N.of_nat (String.length ct)
       + 4 * ((Actions.byteLength body + 2) / 3))%N /\
    (N.of_nat (String.length
                 ("data:image/png;base64," ++ Base64.encode pngBody))
     <= 13981029 + N.of_nat (String.length ct))%N.
Proof.
  split; [exact Scenarios.png_run|].
  exact (ActionsMore.dataUrl_length parsesAsUrl (serving pngResponse) catUrl
           _ _ _ Scenarios.png_run eq_refl).
Defined.

(** X9 at a 1 KiB WebP file. *)
Lemma accepted_file_previewed_witness :
  (ImageBardClient.size smallFile <= 5 * 1024 * 1024)%N /\
  In (ImageBardClient.type smallFile) ImageBardClient.ACCEPTED_IMAGE_TYPES /\
  ImageBardClient.handleFileChange fileReader (Some [smallFile]) idle =
    inr {| ImageBardClient.imagePreview := fileReader smallFile;
           ImageBardClient.imageFileError := None |}.
Proof.
  assert (Hsize : (ImageBardClient.size smallFile <= 5 * 1024 * 1024)%N)
    by discriminate.
  assert (Htype : In (ImageBardClient.type smallFile)
                     ImageBardClient.ACCEPTED_IMAGE_TYPES)
    by (cbn; tauto).
  split; [exact Hsize|]. split; [exact Htype|].
  exact (ImageBardClientMore.accepted_file_previewed fileReader smallFile []
           idle Hsize Htype).
Defined.

(** X12 at a model whose invocation fails. *)
Lemma model_failure_propagates_witness :
  lookup "photoDataUri" [("photoDataUri", JStr tinyPng)] = JStr tinyPng /\
  overloaded (promptFor tinyPng) = inl (ThrownError "The model is overloaded.") /\
  run (PoemFlow.generatePoemFromImage overloaded
         (JObj [("photoDataUri", JStr tinyPng)])) =
    (inl (PoemFlow.ModelFailure (ThrownError "The model is overloaded.")),
     [PoemFlow.ModelCall (promptFor tinyPng)]).
Proof.
  do 2 (split; [reflexivity|]).
  exact (PoemFlowMore.model_failure_propagates overloaded
           [("photoDataUri", JStr tinyPng)] tinyPng _ eq_refl eq_refl).
Defined.

(** X16 at the component as first rendered. *)
Lemma no_image_no_generation_witness :
  (Component.imagePreview fresh = None \/
   Component.imagePreview fresh = Some "") /\
  Component.triggerPoemGeneration
    (ComponentFacts.flowCall (answering "Roses are red") asError) fresh =
    ({| Component.imagePreview := None; Component.generatedPoem := None;
        Component.isLoading := false;
        Component.error := Some (JStr "Please upload an image first.");
        Component.activeTab := Component.FileTab |},
     [Component.ShowToast
        (Component.destructive "Error"
           (JStr "Please upload an image first."))]).
Proof.
  assert (H : Component.imagePreview fresh = None \/
              Component.imagePreview fresh = Some "") by (left; reflexivity).
  split; [exact H|].
  exact (ComponentFacts.no_image_no_generation
           (ComponentFacts.flowCall (answering "Roses are red") asError)
           fresh H).
Defined.

(** X17 at a previewed image and a model that answers with a poem. *)
Lemma generated_poem_is_shown_witness :
  Component.imagePreview previewing = Some tinyPng /\
  answering "Roses are red" (promptFor tinyPng) =
    inr (JObj [("poem", JStr "Roses are red")]) /\
  Component.triggerPoemGeneration
    (ComponentFacts.flowCall (answering "Roses are red") asError) previewing =
    ({| Component.imagePreview := Some tinyPng;
        Component.generatedPoem := Some (JStr "Roses are red");
        Component.isLoading := false; Component.error := None;
        Component.activeTab := Component.FileTab |},
     [Component.CallGenerate (PoemFlow.request tinyPng)]) /\
  Component.poemCard
    (fst (Component.triggerPoemGeneration
            (ComponentFacts.flowCall (answering "Roses are red") asError)
            previewing)) = Some (JStr "Roses are red") /\
  Component.errorBox
    (fst (Component.triggerPoemGeneration
            (ComponentFacts.flowCall (answering "Roses are red") asError)
            previewing)) = None.
Proof.
  do 2 (split; [reflexivity|]).
  refine (ComponentFacts.generated_poem_is_shown (answering "Roses are red")
            asError previewing tinyPng "Roses are red" _ eq_refl _ eq_refl
            eq_refl).
  discriminate.
Defined.


(** X19 at the SVG response and a model that answers with a poem. *)
Lemma url_to_poem_witness :
  parsesAsUrl catUrl = true /\
  Actions.ok svgResponse = true /\
  startsWith "image/svg+xml" "image/" = true /\
  includes "image/svg+xml" " " = false /\
  Component.triggerPoemGeneration
    (ComponentFacts.flowCall (answering "Roses are red") asError)
    (fst (Component.onUrlSubmit
            (ComponentFacts.serverAction parsesAsUrl (serving svgResponse))
            catUrl fresh)) =
    ({| Component.imagePreview := Some "data:image/svg+xml;base64,PHN2Zy8+";
        Component.generatedPoem := Some (JStr "Roses are red");
        Component.isLoading := false; Component.error := None;
        Component.activeTab := Component.FileTab |},
     [Component.CallGenerate
        (PoemFlow.request "data:image/svg+xml;base64,PHN2Zy8+")]) /\
  run (PoemFlow.generatePoemFromImage (answering "Roses are red")
         (PoemFlow.request "data:image/svg+xml;base64,PHN2Zy8+")) =
    (inr (JObj [("poem", JStr "Roses are red")]),
     [PoemFlow.ModelCall
        {| PoemFlow.text := PoemFlow.promptText;
           PoemFlow.mediaUrl := JStr "data:image/svg+xml;base64,PHN2Zy8+" |}]) /\
  Component.poemCard
    (fst (Component.triggerPoemGeneration
            (ComponentFacts.flowCall (answering "Roses are red") asError)
            (fst (Component.onUrlSubmit
                    (ComponentFacts.serverAction parsesAsUrl
                       (serving svgResponse))
                    catUrl fresh)))) = Some (JStr "Roses are red").
Proof.
  do 4 (split; [reflexivity|]).
  refine (ComponentFacts.url_to_poem parsesAsUrl (serving svgResponse)
            (answering "Roses are red") asError catUrl fresh svgResponse
            "image/svg+xml" (list_byte_of_string "<svg/>")
            (JObj [("poem", JStr "Roses are red")]) "Roses are red"
            eq_refl eq_refl eq_refl eq_refl eq_refl eq_refl eq_refl _
            eq_refl eq_refl _).
  - split; discriminate.
  - discriminate.
Defined.

End MoreScenarios.
